(** * ccdc.thirdparty.package: the build-orchestration layer, embedded in Rocq

    The development follows [src/ccdc/thirdparty/package.py].  Python values
    are embedded shallowly:

    - [str] is [string]; an attribute that may hold [None] is an
      [option string];
    - [os.environ] and a [dict] used as a map are [gmap string string]; the
      [source_archives] dict, which is iterated in insertion order, is an
      association list;
    - a [pathlib.Path] is its anchor followed by the operands it was built
      from with [/]; the splitting pathlib applies to an operand is the
      subject of the module [Pathlib];
    - an exception is a value of [exn]; a property that only reads its
      surroundings lives in the error monad [result], a method that runs
      commands, downloads or writes files lives in the state-and-error
      monad [M];
    - the child processes, the network and the host queries are the
      methods of the class [External]. *)

From Stdlib Require Import ZArith List String Ascii DecimalString.
From stdpp Require Import base gmap sets list strings.

Local Open Scope string_scope.
Local Open Scope list_scope.

(** ** Exceptions and results *)

Inductive exn : Type :=
| AttributeError (msg : string)
| TypeError (msg : string)
| ValueError (msg : string)
| Exception (msg : string)
| FileNotFoundError (filename : string)
| URLError (url : string)
| ConnectionResetError (msg : string)
| CalledProcessError (returncode : Z) (cmd : list string) (output : string).

Inductive result (A : Type) : Type :=
| Ok (a : A)
| Raise (e : exn).

Arguments Ok {A} a.
Arguments Raise {A} e.

Definition rbind {A B : Type} (c : result A) (k : A -> result B) : result B :=
  match c with
  | Ok a => k a
  | Raise e => Raise e
  end.

Notation "'let?' x ':=' c 'in' k" := (rbind c (fun x => k))
  (at level 10, x name, c at level 100, k at level 200).

Definition raises {A : Type} (r : result A) : Prop :=
  match r with
  | Ok _ => False
  | Raise _ => True
  end.

Definition is_TypeError (e : exn) : bool :=
  match e with
  | TypeError _ => true
  | _ => false
  end.

Definition is_CalledProcessError (e : exn) : bool :=
  match e with
  | CalledProcessError _ _ _ => true
  | _ => false
  end.

(** ** Strings *)

(** [str(n)] for a non-negative integer. *)
Definition decimal (n : nat) : string := NilEmpty.string_of_uint (Nat.to_uint n).

(** What an f-string prints for an attribute that holds a [str] or [None]. *)
Definition fmt (o : option string) : string :=
  match o with
  | Some s => s
  | None => "None"
  end.

(** [sep.join(l)] on a list of [str]. *)
Definition join (sep : string) (l : list string) : string := String.concat sep l.

Fixpoint first_non_str (i : nat) (l : list (option string)) : option nat :=
  match l with
  | [] => None
  | Some _ :: l' => first_non_str (S i) l'
  | None :: _ => Some i
  end.

(** [sep.join(l)] on a list whose items are [str] or [None]: Python raises
    [TypeError] at the first item that is not a [str]. *)
Definition str_join (sep : string) (l : list (option string)) : result string :=
  match first_non_str 0 l with
  | Some i =>
      Raise (TypeError ("sequence item " +:+ decimal i +:+
                        ": expected str instance, NoneType found"))
  | None => Ok (join sep (omap id l))
  end.

Definition is_space (c : ascii) : bool :=
  let n := nat_of_ascii c in
  (Nat.leb 9 n && Nat.leb n 13) || (Nat.leb 28 n && Nat.leb n 32).

Fixpoint lstrip (s : string) : string :=
  match s with
  | String c s' => if is_space c then lstrip s' else s
  | EmptyString => EmptyString
  end.

Fixpoint rstrip (s : string) : string :=
  match s with
  | String c s' =>
      match rstrip s' with
      | EmptyString => if is_space c then EmptyString else String c EmptyString
      | r => String c r
      end
  | EmptyString => EmptyString
  end.

(** [s.strip()] *)
Definition strip (s : string) : string := rstrip (lstrip s).

(** [repr(l)] of a list of [str] none of which holds a quote or a
    backslash, as the flag lists of [extract_archive] are. *)
Definition repr_list (l : list string) : string :=
  "[" +:+ join ", " (map (fun s => "'" +:+ s +:+ "'") l) +:+ "]".

(** ** Paths *)

Inductive flavour : Type := Posix | Windows.

Record Path : Type := mkPath {
  path_flavour : flavour;
  anchor : string;
  parts : list string
}.

Definition sep (f : flavour) : string :=
  match f with
  | Posix => "/"
  | Windows => "\"
  end.

(** [Path(s)] for a string taken as it is. *)
Definition Path_of (f : flavour) (s : string) : Path := mkPath f EmptyString [s].

(** [p / s], where [s] is one component: the names, versions and file
    names this program joins to a path are meant to hold no separator.
    What pathlib does with an operand that is empty, is ".", holds a
    separator or is anchored is [Pathlib.joinpath] below, which agrees with
    this definition on every operand that is a single component
    ([joinpath_single_component]).  [Pathlib.joinpath] is what the
    downloads of [fetch_source_archives] are named with, their file names
    being the keys of a dict, and what [PackagePaths.install_directory] is
    computed with. *)
Definition truediv (p : Path) (s : string) : Path :=
  mkPath (path_flavour p) (anchor p) (parts p ++ [s]).

Notation "p // s" := (truediv p s) (at level 40, left associativity).

(** [str(p)], also what an f-string prints for [p]. *)
Definition str (p : Path) : string :=
  anchor p +:+ join (sep (path_flavour p)) (parts p).

Definition class_name (f : flavour) : string :=
  match f with
  | Posix => "PosixPath"
  | Windows => "WindowsPath"
  end.

(** [p / o] where [o] may be [None], for which [/] is not defined. *)
Definition truediv_obj (p : Path) (o : option string) : result Path :=
  match o with
  | Some s => Ok (p // s)
  | None =>
      Raise (TypeError ("unsupported operand type(s) for /: '" +:+
                        class_name (path_flavour p) +:+ "' and 'NoneType'"))
  end.

Fixpoint strip_prefix (pre l : list string) : option (list string) :=
  match pre, l with
  | [], _ => Some l
  | x :: pre', y :: l' => if String.eqb x y then strip_prefix pre' l' else None
  | _ :: _, [] => None
  end.

(** [p.relative_to(other)] *)
Definition relative_to (p other : Path) : result Path :=
  if String.eqb (anchor p) (anchor other) then
    match strip_prefix (parts other) (parts p) with
    | Some rest => Ok (mkPath (path_flavour p) EmptyString rest)
    | None =>
        Raise (ValueError ("'" +:+ str p +:+ "' is not in the subpath of '" +:+
                           str other +:+ "'"))
    end
  else
    Raise (ValueError ("'" +:+ str p +:+ "' is not in the subpath of '" +:+
                       str other +:+ "'")).

(** [p.name]: the final component. *)
Definition name_of (p : Path) : string := List.last (parts p) EmptyString.

Fixpoint ends_with_dot (s : string) : bool :=
  match s with
  | EmptyString => false
  | String c EmptyString => Ascii.eqb c "."
  | String _ s' => ends_with_dot s'
  end.

Fixpoint lstrip_dots (s : string) : string :=
  match s with
  | String c s' => if Ascii.eqb c "." then lstrip_dots s' else s
  | EmptyString => EmptyString
  end.

(** [s.split('.')]: the pieces between the dots, the current piece first. *)
Fixpoint split_dots (s : string) : string * list string :=
  match s with
  | EmptyString => (EmptyString, [])
  | String c s' =>
      let '(piece, rest) := split_dots s' in
      if Ascii.eqb c "." then (EmptyString, piece :: rest)
      else (String c piece, rest)
  end.

(** [p.suffixes]: none when the name ends with a dot; otherwise the name
    without its leading dots is split at the dots, the first piece is
    dropped and every other piece gets its dot back. *)
Definition suffixes (p : Path) : list string :=
  let name := name_of p in
  if ends_with_dot name then []
  else map (fun piece => "." +:+ piece) (snd (split_dots (lstrip_dots name))).

(** ['.ext' in p.suffixes] *)
Definition has_suffix (ext : string) (p : Path) : bool :=
  existsb (String.eqb ext) (suffixes p).

(** ** The operator [/] of pathlib

    [Pathlib.joinpath p s] is [p / s] as pathlib computes it (Python 3.8 to
    3.11): the operand is split at the separators of the flavour, the
    pieces that are empty or "." are dropped, and what is left is appended
    to the path, unless the operand is anchored: then it takes the place
    of the path, wholly or, on Windows, as far as its drive and root
    go.  A path is given by its anchor, the drive followed by the root,
    and by the components after the anchor.  (The path without anchor and
    components, which Python prints as ".", is printed as the empty string
    by [str]; it does not arise from the directories of this program.) *)
Module Pathlib.

Definition backslash : ascii := ascii_of_nat 92.

(** The separator of the flavour as a character. *)
Definition sep_char (f : flavour) : ascii :=
  match f with
  | Posix => "/"
  | Windows => backslash
  end.

(** [part.replace(altsep, sep)]: on Windows a slash is a backslash. *)
Fixpoint to_sep (f : flavour) (s : string) : string :=
  match s with
  | EmptyString => EmptyString
  | String c s' =>
      String (match f with
              | Windows => if Ascii.eqb c "/" then backslash else c
              | Posix => c
              end) (to_sep f s')
  end.

(** [s.split(d)]: the pieces between the occurrences of [d], the current
    piece first. *)
Fixpoint pieces_from (d : ascii) (s : string) : string * list string :=
  match s with
  | EmptyString => (EmptyString, [])
  | String c s' =>
      let '(piece, rest) := pieces_from d s' in
      if Ascii.eqb c d then (EmptyString, piece :: rest) else (String c piece, rest)
  end.

Definition pieces (d : ascii) (s : string) : list string :=
  let '(piece, rest) := pieces_from d s in piece :: rest.

(** [x and x != '.'] *)
Definition kept (x : string) : bool :=
  negb (String.eqb x EmptyString) && negb (String.eqb x ".").

(** The components of the part of an operand that follows its anchor. *)
Definition components (f : flavour) (rel : string) : list string :=
  List.filter kept (pieces (sep_char f) rel).

(** [s.lstrip(d)] *)
Fixpoint lstrip_char (d : ascii) (s : string) : string :=
  match s with
  | String c s' => if Ascii.eqb c d then lstrip_char d s' else s
  | EmptyString => EmptyString
  end.

(** [s[n:]] and [s[:n]] *)
Fixpoint from (n : nat) (s : string) : string :=
  match n, s with
  | S k, String _ s' => from k s'
  | _, _ => s
  end.

Fixpoint upto (n : nat) (s : string) : string :=
  match n, s with
  | S k, String c s' => String c (upto k s')
  | _, _ => EmptyString
  end.

(** [s[n:n+1] == c] *)
Definition is_at (n : nat) (c : ascii) (s : string) : bool :=
  match from n s with
  | String d _ => Ascii.eqb d c
  | EmptyString => false
  end.

(** [s.find(d)], and [s.find(d, start)] *)
Fixpoint find (d : ascii) (s : string) : option nat :=
  match s with
  | EmptyString => None
  | String c s' => if Ascii.eqb c d then Some 0 else S <$> find d s'
  end.

Definition find_from (d : ascii) (start : nat) (s : string) : option nat :=
  if Nat.leb start (String.length s) then (fun i => start + i) <$> find d (from start s)
  else None.

Definition is_letter (c : ascii) : bool :=
  let n := nat_of_ascii c in
  (Nat.leb 65 n && Nat.leb n 90) || (Nat.leb 97 n && Nat.leb n 122).

(** [s.lower()], for the letters of ASCII. *)
Fixpoint lower (s : string) : string :=
  match s with
  | EmptyString => EmptyString
  | String c s' =>
      let n := nat_of_ascii c in
      String (if Nat.leb 65 n && Nat.leb n 90 then ascii_of_nat (n + 32) else c)
             (lower s')
  end.

(** [splitroot] of the Posix flavour: the drive, the root and the rest.
    Exactly two leading slashes are kept as the root, any other number is
    one slash. *)
Definition splitroot_posix (part : string) : string * string * string :=
  if is_at 0 "/" part then
    let stripped := lstrip_char "/" part in
    if Nat.eqb (String.length part - String.length stripped) 2
    then (EmptyString, "//", stripped)
    else (EmptyString, "/", stripped)
  else (EmptyString, EmptyString, part).

(** The prefix of an extended path, \\?\ or \\?\UNC, and what follows. *)
Definition split_extended_path (s : string) : string * string :=
  if String.prefix "\\?\" s then
    let rest := from 4 s in
    if String.prefix "UNC\" rest
    then (upto 4 s +:+ upto 3 rest, String backslash (from 3 rest))
    else (upto 4 s, rest)
  else (EmptyString, s).

(** A drive letter followed by a colon. *)
Definition has_drive_letter (part : string) : bool :=
  is_at 1 ":" part &&
  match part with
  | String c _ => is_letter c
  | EmptyString => false
  end.

(** [splitroot] of the Windows flavour, on a part whose slashes are
    backslashes already. *)
Definition splitroot_windows (part0 : string) : string * string * string :=
  let '(prefix, part) :=
    if is_at 1 backslash part0 && is_at 0 backslash part0
    then split_extended_path part0
    else (EmptyString, part0) in
  let plain :=
    let '(drv, rest) :=
      if has_drive_letter part then (upto 2 part, from 2 part)
      else (EmptyString, part) in
    if is_at 0 backslash rest
    then (prefix +:+ drv, String backslash EmptyString, lstrip_char backslash rest)
    else (prefix +:+ drv, EmptyString, rest) in
  if is_at 1 backslash part && is_at 0 backslash part && negb (is_at 2 backslash part)
  then
    (* a UNC path: \\machine\mountpoint\directory *)
    match find_from backslash 2 part with
    | Some index =>
        let index2 := find_from backslash (index + 1) part in
        if bool_decide (index2 = Some (index + 1)) then plain
        else
          let index2 := default (String.length part) index2 in
          (match prefix with
           | EmptyString => upto index2 part
           | String _ _ => prefix +:+ upto (index2 - 1) (from 1 part)
           end,
           String backslash EmptyString, from (index2 + 1) part)
    | None => plain
    end
  else plain.

Definition splitroot (f : flavour) (part : string) : string * string * string :=
  match f with
  | Posix => splitroot_posix part
  | Windows => splitroot_windows part
  end.

(** [parse_parts] on one operand: its drive, its root, and its components
    after the anchor. *)
Definition parse (f : flavour) (s : string) : string * string * list string :=
  match s with
  | EmptyString => (EmptyString, EmptyString, [])
  | String _ _ =>
      let '(drv, root, rel) := splitroot f (to_sep f s) in
      (drv, root, components f rel)
  end.

(** The drive and the root of an anchor. *)
Fixpoint split_last (s : string) : string * option ascii :=
  match s with
  | EmptyString => (EmptyString, None)
  | String c EmptyString => (EmptyString, Some c)
  | String c s' => let '(front, final) := split_last s' in (String c front, final)
  end.

Definition split_anchor (f : flavour) (a : string) : string * string :=
  match f with
  | Posix => (EmptyString, a)
  | Windows =>
      match split_last a with
      | (front, Some c) =>
          if Ascii.eqb c backslash then (front, String backslash EmptyString)
          else (a, EmptyString)
      | (_, None) => (a, EmptyString)
      end
  end.

(** [p / s]: [join_parsed_parts] applied to [p] and the parsed operand. *)
Definition joinpath (p : Path) (s : string) : Path :=
  let f := path_flavour p in
  let '(drv, root) := split_anchor f (anchor p) in
  let '(drv2, root2, parts2) := parse f s in
  match root2, drv2 with
  | String _ _, EmptyString =>
      match drv with
      | String _ _ => mkPath f (drv +:+ root2) parts2
      | EmptyString => mkPath f (drv2 +:+ root2) parts2
      end
  | String _ _, String _ _ => mkPath f (drv2 +:+ root2) parts2
  | EmptyString, String _ _ =>
      if String.eqb drv2 drv || String.eqb (lower drv2) (lower drv)
      then mkPath f (drv +:+ root) (parts p ++ parts2)
      else mkPath f (drv2 +:+ root2) parts2
  | EmptyString, EmptyString => mkPath f (drv +:+ root) (parts p ++ parts2)
  end.

(** [Path(s)] *)
Definition of_string (f : flavour) (s : string) : Path :=
  joinpath (mkPath f EmptyString []) s.

(** [p / o] where [o] may be [None]. *)
Definition joinpath_obj (p : Path) (o : option string) : result Path :=
  match o with
  | Some s => Ok (joinpath p s)
  | None =>
      Raise (TypeError ("unsupported operand type(s) for /: '" +:+
                        class_name (path_flavour p) +:+ "' and 'NoneType'"))
  end.

Fixpoint has_separator (f : flavour) (s : string) : bool :=
  match s with
  | EmptyString => false
  | String c s' =>
      Ascii.eqb c "/" ||
      match f with Windows => Ascii.eqb c backslash | Posix => false end ||
      has_separator f s'
  end.

(** An operand that is one component of a path: it is not empty and not
    ".", holds no separator and, on Windows, does not start with a drive
    letter and a colon. *)
Definition single_component (f : flavour) (s : string) : bool :=
  kept s && negb (has_separator f s) &&
  negb (match f with Windows => has_drive_letter s | Posix => false end).

End Pathlib.

(** ** The process, the file system and what lies outside *)

Record Host : Type := {
  sys_platform : string;
  environ : gmap string string;
  cpu_count : nat
}.

Record FileSystem : Type := {
  files : gmap string string;
  dirs : gset string;
  executable : gset string
}.

(** One [subprocess.Popen] call. *)
Record Invocation : Type := {
  argv : list string;
  cwd : option string;
  env : option (gmap string string)
}.

(** How a download ends.  It fails before anything is written: [urlopen]
    raises, or the target cannot be opened for writing, and no file is
    made; or the response is copied to the target to its end; or the
    response fails while it is copied, after the target was opened and
    [partial] was written to it. *)
Inductive download : Type :=
| Failed (e : exn)
| Delivered (body : string)
| Interrupted (partial : string) (e : exn).

(** What the program cannot decide.  [exec]: the exit status of a child
    process, what the loop of [system] reads of its output, and what the
    child does to the files; the loop reads one more line once it has seen
    that the child ended and then stops, so what it reads may be less than
    what the child printed.  [urlopen]: how the download of a url ends.
    [check_output]: what the host's query commands print.  A child that
    cannot be started is not part of the model. *)
Class External : Type := {
  Outside : Type;
  exec : Invocation -> FileSystem -> Outside -> Z * string * FileSystem * Outside;
  urlopen : string -> Outside -> download * Outside;
  check_output : string -> FileSystem -> Outside -> result string
}.

Record State `{External} : Type := mkState {
  fs : FileSystem;
  outside : Outside;
  commands : list Invocation;
  requests : list string;
  cached_sdkroot : option string
}.

(** [Path(p).exists()] *)
Definition path_exists (f : FileSystem) (p : string) : bool :=
  bool_decide (is_Some (files f !! p)) || bool_decide (p ∈ dirs f).

(** ** The state-and-error monad *)

Definition M (S A : Type) : Type := S -> result A * S.

Definition ret {S A : Type} (a : A) : M S A := fun s => (Ok a, s).

Definition raise {S A : Type} (e : exn) : M S A := fun s => (Raise e, s).

Definition bind {S A B : Type} (c : M S A) (k : A -> M S B) : M S B :=
  fun s =>
    match c s with
    | (Ok a, s') => k a s'
    | (Raise e, s') => (Raise e, s')
    end.

(** A property read in the current state. *)
Definition read {S A : Type} (f : S -> result A) : M S A := fun s => (f s, s).

(** An expression that cannot touch the state. *)
Definition lift {S A : Type} (r : result A) : M S A := fun s => (r, s).

(** [try: c  except <the exceptions handler accepts>: ...]; an exception
    the handler does not accept goes on to the caller. *)
Definition try_except {S A : Type} (c : M S A) (handler : exn -> option (M S A))
  : M S A :=
  fun s =>
    match c s with
    | (Ok a, s') => (Ok a, s')
    | (Raise e, s') =>
        match handler e with
        | Some h => h s'
        | None => (Raise e, s')
        end
    end.

Notation "'let!' x ':=' c 'in' k" := (bind c (fun x => k))
  (at level 10, x name, c at level 100, k at level 200).

(** ** Python objects that are a list of [str] or a [str] *)

Inductive pyobj : Type :=
| PyList (l : list string)
| PyStr (s : string).

Definition dquote : string := String (ascii_of_nat 34) EmptyString.

(** The message of the [TypeError] Python raises for [list + str]. *)
Definition list_plus_str : string :=
  "can only concatenate list (not " +:+ dquote +:+ "str" +:+ dquote +:+ ") to list".

(** [a + b] *)
Definition py_add (a b : pyobj) : result pyobj :=
  match a, b with
  | PyList l, PyList l' => Ok (PyList (l ++ l'))
  | PyStr s, PyStr s' => Ok (PyStr (s +:+ s'))
  | PyList _, PyStr _ => Raise (TypeError list_plus_str)
  | PyStr _, PyList _ =>
      Raise (TypeError ("can only concatenate str (not " +:+ dquote +:+ "list" +:+
                        dquote +:+ ") to str"))
  end.

(** What an f-string prints for the object. *)
Definition py_format (v : pyobj) : string :=
  match v with
  | PyList l => repr_list l
  | PyStr s => s
  end.

(** [system] wraps a command that is a [str] into a list. *)
Definition as_command (v : pyobj) : list string :=
  match v with
  | PyList l => l
  | PyStr s => [s]
  end.

(** Truth value of an attribute that holds [None] or a [str]. *)
Definition truthy (o : option string) : bool :=
  match o with
  | Some (String _ _) => true
  | _ => false
  end.

Fixpoint drop_last (s : string) : string :=
  match s with
  | EmptyString => EmptyString
  | String _ EmptyString => EmptyString
  | String c s' => String c (drop_last s')
  end.

(** [OSError] and its subclasses. *)
Definition is_OSError (e : exn) : bool :=
  match e with
  | FileNotFoundError _ | URLError _ | ConnectionResetError _ => true
  | _ => false
  end.

(** ** State updates *)

Section Updates.
Context `{External}.

Definition with_fs (f : FileSystem) (s : State) : State :=
  mkState _ f (outside s) (commands s) (requests s) (cached_sdkroot s).

Definition write_file (p content : string) (f : FileSystem) : FileSystem :=
  {| files := <[p := content]> (files f); dirs := dirs f;
     executable := executable f |}.

(** The state once [urllib.request.urlopen(url)] was called. *)
Definition asked (url : string) (outside1 : Outside) (s : State) : State :=
  mkState _ (fs s) outside1 (commands s) (requests s ++ [url]) (cached_sdkroot s).

Definition file_content (p : string) (f : FileSystem) : string :=
  default EmptyString (files f !! p).

(** The directories [p.mkdir(parents=True, exist_ok=True)] leaves behind:
    [p] and every ancestor of it.  The call is taken to succeed. *)
Definition ancestors (p : Path) : list string :=
  map (fun k => str (mkPath (path_flavour p) (anchor p) (take k (parts p))))
      (seq 1 (length (parts p))).

Definition mkdir (p : Path) : M State unit :=
  fun s =>
    (Ok tt,
     with_fs {| files := files (fs s);
                dirs := dirs (fs s) ∪ list_to_set (ancestors p);
                executable := executable (fs s) |} s).

(** Whether the file or directory [k] is [root] or lies below it. *)
Definition under (root : Path) (k : string) : bool :=
  String.eqb k (str root) ||
  String.prefix (str root +:+ sep (path_flavour root)) k.

(** [shutil.rmtree(root, ignore_errors=True)], where every entry of the
    tree can be removed and the tree is what is named by [root] followed by
    a separator.  (Python goes on past an entry it cannot remove and leaves
    it there.) *)
Definition rmtree (root : Path) : M State unit :=
  fun s =>
    (Ok tt,
     with_fs {| files := filter (fun kv => under root kv.1 = false) (files (fs s));
                dirs := filter (fun d => under root d = false) (dirs (fs s));
                executable :=
                  filter (fun d => under root d = false) (executable (fs s)) |} s).

(** [os.stat(p)] followed by [os.chmod(p, st.st_mode | stat.S_IEXEC)] *)
Definition make_executable (p : string) : M State unit :=
  fun s =>
    if path_exists (fs s) p then
      (Ok tt,
       with_fs {| files := files (fs s); dirs := dirs (fs s);
                  executable := executable (fs s) ∪ {[ p ]} |} s)
    else (Raise (FileNotFoundError p), s).

End Updates.

(** ** The package *)

Record Package : Type := {
  name : option string;
  version : option string;
  use_vs_version_in_base_name : bool;
  use_distribution_in_base_name : bool;
  source_archives : list (string * string);
  configuration_script : option string
}.

Module Package.

Section Methods.
Context `{External}.
Variable host : Host.

Definition macos : bool := String.eqb (sys_platform host) "darwin".
Definition windows : bool := String.eqb (sys_platform host) "win32".
Definition linux : bool := String.prefix "linux" (sys_platform host).

(** The flavour of the paths [Path(...)] builds on this host. *)
Definition host_flavour : flavour := if windows then Windows else Posix.

Definition centos (s : State) : bool :=
  linux && path_exists (fs s) "/etc/centos-release".

Definition centos_major_version (s : State) : result string :=
  let? out := check_output "rpm -E %{rhel}" (fs s) (outside s) in
  Ok (strip out).

Definition debian (s : State) : bool :=
  linux && path_exists (fs s) "/etc/debian_version".

Definition ubuntu (s : State) : result bool :=
  if debian s then
    let? out := check_output "lsb_release -i -s" (fs s) (outside s) in
    Ok (String.eqb (strip out) "Ubuntu")
  else Ok false.

Definition ubuntu_version (s : State) : result string :=
  let? out := check_output "lsb_release -r -s" (fs s) (outside s) in
  Ok (strip out).

(** The [platform] property; [Ok None] is Python's [None], returned when
    the chain of conditions ends without a [return]. *)
Definition platform (self : Package) (s : State) : result (option string) :=
  if negb (use_distribution_in_base_name self) then Ok (Some (sys_platform host))
  else if negb linux then Ok (Some (sys_platform host))
  else if centos s then
    let? v := centos_major_version s in Ok (Some ("centos" +:+ v))
  else
    let? u := ubuntu s in
    if u then
      let? v := ubuntu_version s in Ok (Some ("ubuntu" +:+ v))
    else Ok None.

Definition toolbase : Path :=
  if windows then mkPath Windows "D:\" ["x_mirror"; "buildman"; "tools"]
  else mkPath Posix "/" ["opt"; "ccdc"; "third-party"].

Definition source_downloads_base : Path :=
  if windows then
    match environ host !! "SYSTEM_ARTIFACTSDIRECTORY" with
    | Some d => Pathlib.of_string Windows d
    | None => mkPath Windows "D:\" ["tp"; "downloads"]
    end
  else mkPath Posix "/" ["opt"; "ccdc"; "third-party-sources"; "downloads"].

Definition source_extracted_base : Path :=
  if windows then mkPath Windows "D:\" ["tp"; "extracted"]
  else mkPath Posix "/" ["opt"; "ccdc"; "third-party-sources"; "extracted"].

Definition source_builds_base : Path :=
  if windows then mkPath Windows "D:\" ["tp"; "builds"]
  else mkPath Posix "/" ["opt"; "ccdc"; "third-party-sources"; "builds"].

Definition build_logs : Path :=
  if windows then mkPath Windows "D:\" ["tp"; "logs"]
  else mkPath Posix "/" ["opt"; "ccdc"; "third-party-sources"; "logs"].

Definition output_base_name (self : Package) (s : State) : result string :=
  let components := [name self; version self] in
  let components :=
    match environ host !! "BUILD_BUILDNUMBER" with
    | Some n => components ++ [Some n]
    | None => components ++ [Some "do-not-use-me-developer-version"]
    end in
  let? p := platform self s in
  let components := components ++ [p] in
  let components :=
    match use_vs_version_in_base_name self, environ host !! "BUILD_VS_VERSION" with
    | true, Some v => components ++ [Some ("vs" +:+ v)]
    | _, _ => components
    end in
  str_join "-" components.

Definition install_directory (self : Package) (s : State) : result Path :=
  let? d := truediv_obj toolbase (name self) in
  let? b := output_base_name self s in
  Ok (d // b).

Definition output_archive_filename (self : Package) (s : State) : result string :=
  let? b := output_base_name self s in
  Ok (b +:+ ".tar.gz").

Definition logfile_path (self : Package) (task : string) : Path :=
  build_logs //
    (fmt (name self) +:+ "-" +:+ fmt (version self) +:+ "-" +:+ task +:+ ".log").

(** [system]: [task] is the name of the calling method, which the source
    reads from the caller's frame.  The log file is opened (emptied
    unless [append_log]) and the child is started; the loop polls the
    child, reads one line, and goes on until the poll that came before a
    line said the child had ended.  What the loop has read by then, the
    [output] of [exec], is what the log and the exception hold; a non-zero
    exit status raises [CalledProcessError]. *)
Definition system (self : Package) (task : string) (command : list string)
    (where_ : option Path) (environment : option (gmap string string))
    (append_log : bool) : M State unit :=
  fun s =>
    let log := str (logfile_path self task) in
    let call := {| argv := command; cwd := str <$> where_; env := environment |} in
    let opened :=
      write_file log (if append_log then file_content log (fs s) else EmptyString)
                 (fs s) in
    let '(returncode, output, fs1, outside1) := exec call opened (outside s) in
    let fs2 := write_file log (file_content log fs1 +:+ output) fs1 in
    let s' := mkState _ fs2 outside1 (commands s ++ [call]) (requests s)
                      (cached_sdkroot s) in
    if Z.eqb returncode 0 then (Ok tt, s')
    else (Raise (CalledProcessError returncode command output), s').

(** [self.source_downloads_base / filename], as the file system names it. *)
Definition download_path (filename : string) : string :=
  str (Pathlib.joinpath source_downloads_base filename).

(** The state once [content] was written to the download of [filename]. *)
Definition stored (filename content : string) (s : State) : State :=
  with_fs (write_file (download_path filename) content (fs s)) s.

(** The body of the loop of [fetch_source_archives], over the items of
    [source_archives].  [urlopen] comes first, then the target is opened
    for writing: when one of the two raises, no file was made.  Then the
    response is copied to the target; when the copy fails, what was copied
    stays in the target. *)
Fixpoint fetch_items (items : list (string * string)) : M State unit :=
  match items with
  | [] => ret tt
  | (filename, url) :: rest =>
      fun s =>
        if path_exists (fs s) (download_path filename) then fetch_items rest s
        else
          let '(response, outside1) := urlopen url (outside s) in
          let s1 := asked url outside1 s in
          match response with
          | Failed e => (Raise e, s1)
          | Delivered body => fetch_items rest (stored filename body s1)
          | Interrupted partial e => (Raise e, stored filename partial s1)
          end
  end.

Definition fetch_source_archives (self : Package) : M State unit :=
  fetch_items (source_archives self).

Definition source_downloads (self : Package) : M State Path :=
  let! p := lift (truediv_obj source_downloads_base (name self)) in
  let! _ := mkdir p in
  ret p.

Definition source_extracted (self : Package) : M State Path :=
  let! p := lift (truediv_obj source_extracted_base (name self)) in
  let! _ := mkdir p in
  ret p.

Definition main_source_directory_path (self : Package) : M State Path :=
  let! p := source_extracted self in
  ret (p // (fmt (name self) +:+ "-" +:+ fmt (version self))).

Definition build_directory_path (self : Package) : M State Path :=
  let! p := lift (truediv_obj source_builds_base (name self)) in
  let! _ := mkdir p in
  ret p.

Definition extract_archive (self : Package) (path where_ : Path) : M State unit :=
  if has_suffix ".zip" path then
    system self "extract_archive" ["unzip"; "-q"; "-o"; str path] (Some where_) None false
  else
    let! _ :=
      (if has_suffix ".7z" path then
         system self "extract_archive"
                ["7z"; "x"; "-aoa"; "-o" +:+ str where_; str path] None None false
       else ret tt) in
    let! flags :=
      (if has_suffix ".bz2" path then ret (PyList ["jxf"])
       else if has_suffix ".gz" path then ret (PyList ["zxf"])
       else if has_suffix ".tgz" path then ret (PyList ["zxf"])
       else if has_suffix ".xz" path then ret (PyList ["xf"])
       else if has_suffix ".zst" path then
         ret (PyList ["--use-compress-program=zstd"; "-xf"])
       else raise (AttributeError ("Can't extract " +:+ str path))) in
    if windows then
      let flags := PyStr ("-" +:+ py_format flags) in
      try_except
        (let! command :=
           lift (let? c := py_add (PyList ["tar"; "--force-local"]) flags in
                 py_add c (PyList [str path])) in
         system self "extract_archive" (as_command command) (Some where_) None false)
        (fun e =>
           if is_CalledProcessError e then
             Some (let! command :=
                     lift (let? c := py_add (PyList ["tar"]) flags in
                           py_add c (PyList [str path])) in
                   system self "extract_archive" (as_command command)
                          (Some where_) None false)
           else None)
    else
      let! command :=
        lift (let? c := py_add (PyList ["tar"]) flags in
              py_add c (PyList [str path])) in
      system self "extract_archive" (as_command command) (Some where_) None false.

Fixpoint extract_keys (self : Package) (keys : list string) : M State unit :=
  match keys with
  | [] => ret tt
  | source_archive_filename :: rest =>
      let! where_ := source_extracted self in
      let! _ := extract_archive self (source_downloads_base // source_archive_filename)
                                where_ in
      extract_keys self rest
  end.

Definition extract_source_archives (self : Package) : M State unit :=
  extract_keys self (map fst (source_archives self)).

Definition patch_sources (self : Package) : M State unit := ret tt.

Definition create_archive (self : Package) : M State unit :=
  let archive_output_directory :=
    match environ host !! "BUILD_ARTIFACTSTAGINGDIRECTORY" with
    | Some d => Path_of host_flavour d
    | None => source_builds_base
    end in
  (* the message that is printed reads the archive's name *)
  let! _ := read (output_archive_filename self) in
  let! archive := read (output_archive_filename self) in
  let! installed := read (install_directory self) in
  let! package_directory := lift (truediv_obj toolbase (name self)) in
  let! relative := lift (relative_to installed package_directory) in
  let command := ["tar"; "-zcf"; str (archive_output_directory // archive);
                  str relative] in
  try_except
    (let! where_ := lift (truediv_obj toolbase (name self)) in
     system self "create_archive" command (Some where_) None false)
    (fun e =>
       if is_CalledProcessError e then
         Some (if negb windows then raise e
               else
                 let command := take 1 command ++ ["--force-local"] ++ drop 1 command in
                 let! where_ := lift (truediv_obj toolbase (name self)) in
                 system self "create_archive" command (Some where_) None false)
       else None).

(** [cleanup]: the message printed after each removal reads the property
    once more, which makes the directory again. *)
Definition cleanup (self : Package) : M State unit :=
  let! _ :=
    try_except
      (let! p := source_extracted self in
       let! _ := rmtree p in
       let! _ := source_extracted self in
       ret tt)
      (fun e => if is_OSError e then Some (ret tt) else None) in
  try_except
    (let! p := build_directory_path self in
     let! _ := rmtree p in
     let! _ := build_directory_path self in
     ret tt)
    (fun e => if is_OSError e then Some (ret tt) else None).

Definition arguments_to_configuration_script (self : Package)
  : M State (list string) :=
  let! d := read (install_directory self) in
  ret ["--prefix=" +:+ str d].

Definition macos_deployment_target : string := "10.12".

Definition macos_sdkroot : M State (option string) :=
  if negb macos then ret None
  else
    let! _ :=
      (fun s =>
         if truthy (cached_sdkroot s) then (Ok tt, s)
         else
           match check_output "xcrun --show-sdk-path" (fs s) (outside s) with
           | Ok out =>
               (Ok tt,
                mkState _ (fs s) (outside s) (commands s) (requests s)
                        (Some (drop_last out)))
           | Raise e => (Raise e, s)
           end) in
    fun s => (Ok (cached_sdkroot s), s).

Definition macos_flags : M State (list (option string)) :=
  let! root := macos_sdkroot in
  ret [Some "-arch"; Some "x86_64"; Some "-isysroot"; root;
       Some ("-mmacosx-version-min=" +:+ macos_deployment_target)].

Definition cxxflags : M State (list (option string)) :=
  let flags := [Some "-O2"] in
  if macos then let! more := macos_flags in ret (flags ++ more) else ret flags.

Definition ldflags : M State (list (option string)) :=
  let flags := [] in
  if macos then let! more := macos_flags in ret (flags ++ more) else ret flags.

Definition cflags : M State (list (option string)) :=
  let flags := [Some "-O2"] in
  if macos then let! more := macos_flags in ret (flags ++ more) else ret flags.

(** [if flags: env[key] = ' '.join(flags)]; the property is read twice. *)
Definition export_flags (key : string) (flags : M State (list (option string)))
    (environment : gmap string string) : M State (gmap string string) :=
  let! tested := flags in
  match tested with
  | [] => ret environment
  | _ :: _ =>
      let! joined := flags in
      let! value := lift (str_join " " joined) in
      ret (<[key := value]> environment)
  end.

Definition environment_for_configuration_script : M State (gmap string string) :=
  let! e := export_flags "CFLAGS" cflags (environ host) in
  let! e := export_flags "CXXFLAGS" cxxflags e in
  export_flags "LDFLAGS" ldflags e.

Definition run_configuration_script (self : Package) : M State unit :=
  if negb (truthy (configuration_script self)) then ret tt
  else
    let script := fmt (configuration_script self) in
    let! _ := make_executable script in
    let! arguments := arguments_to_configuration_script self in
    let! environment := environment_for_configuration_script in
    let! where_ := build_directory_path self in
    system self "run_configuration_script" ([script] ++ arguments)
           (Some where_) (Some environment) false.

Definition environment_for_build_command : M State (gmap string string) :=
  environment_for_configuration_script.

Definition run_build_command (self : Package) : M State unit := ret tt.

Definition run_install_command (self : Package) : M State unit := ret tt.

Definition verify (self : Package) : M State unit := ret tt.

End Methods.

End Package.

(** The property of [Package] that the specification speaks of as a
    nesting of directories, with the [/] of pathlib. *)
Module PackagePaths.

(** [self.toolbase / self.name / self.output_base_name] *)
Definition install_directory `{External} (host : Host) (self : Package) (s : State)
  : result Path :=
  let? d := Pathlib.joinpath_obj (Package.toolbase host) (name self) in
  let? b := Package.output_base_name host self s in
  Ok (Pathlib.joinpath d b).

End PackagePaths.

Module GnuMakeMixin.
Section Methods.
Context `{External}.
Variable host : Host.

Definition run_build_command (self : Package) : M State unit :=
  let! environment := Package.environment_for_build_command host in
  let! where_ := Package.build_directory_path host self in
  Package.system host self "run_build_command"
                 ["make"; "-j" +:+ decimal (cpu_count host)]
                 (Some where_) (Some environment) false.

End Methods.
End GnuMakeMixin.

Module MakeInstallMixin.
Section Methods.
Context `{External}.
Variable host : Host.

Definition run_install_command (self : Package) : M State unit :=
  let! environment := Package.environment_for_build_command host in
  let! where_ := Package.build_directory_path host self in
  Package.system host self "run_install_command" ["make"; "install"]
                 (Some where_) (Some environment) false.

End Methods.
End MakeInstallMixin.

Module CMakeMixin.

Definition visual_studio_generator_for_build (host : Host) : result string :=
  match environ host !! "BUILD_VS_VERSION" with
  | None => Ok "Visual Studio 16 2019"
  | Some v =>
      if String.eqb v "2019" then Ok "Visual Studio 16 2019"
      else if String.eqb v "2017" then Ok "Visual Studio 15 2017"
      else Raise (Exception ("Invalid value for BUILD_VS_VERSION: " +:+ v))
  end.

End CMakeMixin.

Module NoArchiveMixin.

Definition create_archive `{External} (self : Package) : M State unit := ret tt.

End NoArchiveMixin.

(** ** The pipeline *)

(** The nine methods [build] calls on [self], as the method resolution
    order of the object's class binds them. *)
Record Pipeline (S : Type) : Type := {
  cleanup : M S unit;
  fetch_source_archives : M S unit;
  extract_source_archives : M S unit;
  patch_sources : M S unit;
  run_configuration_script : M S unit;
  run_build_command : M S unit;
  run_install_command : M S unit;
  verify : M S unit;
  create_archive : M S unit
}.

Arguments cleanup {S} _.
Arguments fetch_source_archives {S} _.
Arguments extract_source_archives {S} _.
Arguments patch_sources {S} _.
Arguments run_configuration_script {S} _.
Arguments run_build_command {S} _.
Arguments run_install_command {S} _.
Arguments verify {S} _.
Arguments create_archive {S} _.

Definition build {S : Type} (self : Pipeline S) : M S unit :=
  let! _ := cleanup self in
  let! _ := fetch_source_archives self in
  let! _ := extract_source_archives self in
  let! _ := patch_sources self in
  let! _ := run_configuration_script self in
  let! _ := run_build_command self in
  let! _ := run_install_command self in
  let! _ := verify self in
  create_archive self.

(** The stages by name, to speak about which of them ran. *)
Inductive stage : Type :=
| Cleanup
| FetchSourceArchives
| ExtractSourceArchives
| PatchSources
| RunConfigurationScript
| RunBuildCommand
| RunInstallCommand
| Verify
| CreateArchive.

Definition stages : list stage :=
  [Cleanup; FetchSourceArchives; ExtractSourceArchives; PatchSources;
   RunConfigurationScript; RunBuildCommand; RunInstallCommand; Verify;
   CreateArchive].

Definition method {S : Type} (self : Pipeline S) (st : stage) : M S unit :=
  match st with
  | Cleanup => cleanup self
  | FetchSourceArchives => fetch_source_archives self
  | ExtractSourceArchives => extract_source_archives self
  | PatchSources => patch_sources self
  | RunConfigurationScript => run_configuration_script self
  | RunBuildCommand => run_build_command self
  | RunInstallCommand => run_install_command self
  | Verify => verify self
  | CreateArchive => create_archive self
  end.

(** A method that writes its name into a journal when it is entered; the
    journal is out of the method's own reach. *)
Definition logged {S : Type} (st : stage) (m : M S unit) : M (list stage * S) unit :=
  fun js =>
    let '(r, s') := m (snd js) in
    (r, (fst js ++ [st], s')).

(** The same object with every stage journalled. *)
Definition observed {S : Type} (self : Pipeline S) : Pipeline (list stage * S) := {|
  cleanup := logged Cleanup (cleanup self);
  fetch_source_archives := logged FetchSourceArchives (fetch_source_archives self);
  extract_source_archives := logged ExtractSourceArchives (extract_source_archives self);
  patch_sources := logged PatchSources (patch_sources self);
  run_configuration_script := logged RunConfigurationScript (run_configuration_script self);
  run_build_command := logged RunBuildCommand (run_build_command self);
  run_install_command := logged RunInstallCommand (run_install_command self);
  verify := logged Verify (verify self);
  create_archive := logged CreateArchive (create_archive self)
|}.

(** The contract in the specification's words: the listed stages run in
    the order of the list, each at most once, and the first one that raises
    ends the run with its exception.  [Runs self todo s executed r s']:
    from [s], going through [todo] enters exactly [executed] and ends with
    [r] in [s']. *)
Inductive Runs {S : Type} (self : Pipeline S)
  : list stage -> S -> list stage -> result unit -> S -> Prop :=
| Runs_done (s : S) : Runs self [] s [] (Ok tt) s
| Runs_next (st : stage) (rest : list stage) (s s1 : S) (executed : list stage)
    (r : result unit) (s2 : S) :
    method self st s = (Ok tt, s1) ->
    Runs self rest s1 executed r s2 ->
    Runs self (st :: rest) s (st :: executed) r s2
| Runs_abort (st : stage) (rest : list stage) (s : S) (e : exn) (s1 : S) :
    method self st s = (Raise e, s1) ->
    Runs self (st :: rest) s [st] (Raise e) s1.

(** The pipeline of a class that inherits every stage from [Package]. *)
Definition Package_pipeline `{External} (host : Host) (self : Package)
  : Pipeline State := {|
  cleanup := Package.cleanup host self;
  fetch_source_archives := Package.fetch_source_archives host self;
  extract_source_archives := Package.extract_source_archives host self;
  patch_sources := Package.patch_sources self;
  run_configuration_script := Package.run_configuration_script host self;
  run_build_command := Package.run_build_command self;
  run_install_command := Package.run_install_command self;
  verify := Package.verify self;
  create_archive := Package.create_archive host self
|}.

(** The pipeline of [class P(GnuMakeMixin, MakeInstallMixin, Package)]: the
    mixins come first in the method resolution order, so their build and
    install commands replace the ones of [Package]. *)
Definition GnuMake_MakeInstall_pipeline `{External} (host : Host) (self : Package)
  : Pipeline State := {|
  cleanup := Package.cleanup host self;
  fetch_source_archives := Package.fetch_source_archives host self;
  extract_source_archives := Package.extract_source_archives host self;
  patch_sources := Package.patch_sources self;
  run_configuration_script := Package.run_configuration_script host self;
  run_build_command := GnuMakeMixin.run_build_command host self;
  run_install_command := MakeInstallMixin.run_install_command host self;
  verify := Package.verify self;
  create_archive := Package.create_archive host self
|}.

(** ** Running a list of actions, and fetching, as relations *)

(** [InOrder actions s count r s']: from [s] the actions are run one after
    the other; [count] of them are entered; the first one that raises ends
    the run with its exception, and the run returns when all returned. *)
Inductive InOrder {S : Type} : list (M S unit) -> S -> nat -> result unit -> S -> Prop :=
| InOrder_done (s : S) : InOrder [] s 0 (Ok tt) s
| InOrder_next (m : M S unit) (rest : list (M S unit)) (s s1 : S) (count : nat)
    (r : result unit) (s2 : S) :
    m s = (Ok tt, s1) ->
    InOrder rest s1 count r s2 ->
    InOrder (m :: rest) s (Datatypes.S count) r s2
| InOrder_abort (m : M S unit) (rest : list (M S unit)) (s : S) (e : exn) (s1 : S) :
    m s = (Raise e, s1) ->
    InOrder (m :: rest) s 1 (Raise e) s1.

(** The contract of [fetch_source_archives] in the specification's words:
    for each (filename, url) of the mapping, in its order, the entry is
    skipped when its file is already in the downloads directory, and
    otherwise the url is asked for and what it delivers is written to that
    file.  A download that fails ends the run: when it fails before the
    copy starts no file is made, when the response breaks off the file
    holds what had arrived. *)
Inductive Fetches `{External} (host : Host)
  : list (string * string) -> State -> result unit -> State -> Prop :=
| Fetches_done (s : State) : Fetches host [] s (Ok tt) s
| Fetches_skip (f u : string) (rest : list (string * string)) (s : State)
    (r : result unit) (s' : State) :
    path_exists (fs s) (Package.download_path host f) = true ->
    Fetches host rest s r s' ->
    Fetches host ((f, u) :: rest) s r s'
| Fetches_download (f u : string) (rest : list (string * string)) (s : State)
    (body : string) (outside1 : Outside) (r : result unit) (s' : State) :
    path_exists (fs s) (Package.download_path host f) = false ->
    urlopen u (outside s) = (Delivered body, outside1) ->
    Fetches host rest (Package.stored host f body (asked u outside1 s)) r s' ->
    Fetches host ((f, u) :: rest) s r s'
| Fetches_failed (f u : string) (rest : list (string * string)) (s : State)
    (e : exn) (outside1 : Outside) :
    path_exists (fs s) (Package.download_path host f) = false ->
    urlopen u (outside s) = (Failed e, outside1) ->
    Fetches host ((f, u) :: rest) s (Raise e) (asked u outside1 s)
| Fetches_interrupted (f u : string) (rest : list (string * string)) (s : State)
    (partial : string) (e : exn) (outside1 : Outside) :
    path_exists (fs s) (Package.download_path host f) = false ->
    urlopen u (outside s) = (Interrupted partial e, outside1) ->
    Fetches host ((f, u) :: rest) s (Raise e)
            (Package.stored host f partial (asked u outside1 s)).

(** ** A scripted outside world, to run the model on concrete inputs *)

(** The outside is the list of exit statuses the next commands will end
    with (0 once the list is used up); a command prints nothing and leaves
    the files alone; a download answers with the url it was asked for; no
    host query command is installed. *)
Definition scripted : External := {|
  Outside := list Z;
  exec := fun _ f o =>
            match o with
            | [] => (0%Z, EmptyString, f, [])
            | rc :: o' => (rc, EmptyString, f, o')
            end;
  urlopen := fun url o => (Delivered url, o);
  check_output := fun c _ _ => Raise (CalledProcessError 127 [c] EmptyString)
|}.

Definition empty_fs : FileSystem :=
  {| files := ∅; dirs := ∅; executable := ∅ |}.

Definition start (exits : list Z) : @State scripted :=
  @mkState scripted empty_fs exits [] [] None.

Definition host_of (platform : string) (vars : list (string * string)) : Host :=
  {| sys_platform := platform; environ := list_to_map vars; cpu_count := 4 |}.

Definition package_of (n v : string) (archives : list (string * string)) : Package :=
  {| name := Some n; version := Some v;
     use_vs_version_in_base_name := true;
     use_distribution_in_base_name := false;
     source_archives := archives;
     configuration_script := None |}.

Definition qwt : Package := package_of "qwt" "6.1.4" [].

(** A package that asks for the distribution in its base name. *)
Definition qwt_with_distribution : Package :=
  {| name := Some "qwt"; version := Some "6.1.4";
     use_vs_version_in_base_name := true;
     use_distribution_in_base_name := true;
     source_archives := [];
     configuration_script := None |}.

(** A package configured by the qmake of a Qt that is already installed. *)
Definition qwt_with_qmake : Package :=
  {| name := Some "qwt"; version := Some "6.1.4";
     use_vs_version_in_base_name := true;
     use_distribution_in_base_name := false;
     source_archives := [];
     configuration_script := Some "/opt/qt/bin/qmake" |}.

Definition qmake_installed (exits : list Z) : @State scripted :=
  @mkState scripted
    {| files := {[ "/opt/qt/bin/qmake" := "#!/bin/sh" ]}; dirs := ∅; executable := ∅ |}
    exits [] [] None.

(** A package with two source archives, the first of which has been
    downloaded before. *)
Definition two_archives : Package :=
  package_of "qwt" "6.1.4"
    [("qwt-6.1.4.zip", "https://example.org/qwt-6.1.4.zip");
     ("qt-5.12.tar.xz", "https://example.org/qt-5.12.tar.xz")].

Definition first_archive_cached : @State scripted :=
  @mkState scripted
    {| files := {[ "/opt/ccdc/third-party-sources/downloads/qwt-6.1.4.zip" := "PK" ]};
       dirs := ∅; executable := ∅ |}
    [] [] [] None.

Definition both_archives_cached : @State scripted :=
  @mkState scripted
    {| files :=
         <[ "/opt/ccdc/third-party-sources/downloads/qt-5.12.tar.xz" :=
              "https://example.org/qt-5.12.tar.xz" ]>
         {[ "/opt/ccdc/third-party-sources/downloads/qwt-6.1.4.zip" := "PK" ]};
       dirs := ∅; executable := ∅ |}
    [] [] ["https://example.org/qt-5.12.tar.xz"] None.

Definition linux_host : Host := host_of "linux" [("HOME", "/home/build")].

Definition windows_host : Host :=
  host_of "win32" [("BUILD_BUILDNUMBER", "20200101.1"); ("BUILD_VS_VERSION", "2019")].


(** * More of the module, and the Qwt package *)

(** ** Text *)

Definition nl : string := String (ascii_of_nat 10) EmptyString.

(** [s.replace(old, new)] for a pattern that is not empty: the text is
    read from the left; where the pattern starts, [new] is written and the
    characters of that occurrence are skipped. *)
Fixpoint replace_from (old new : string) (skip : nat) (s : string) : string :=
  match s with
  | EmptyString => EmptyString
  | String c s' =>
      match skip with
      | S k => replace_from old new k s'
      | O =>
          if String.prefix old s
          then new +:+ replace_from old new (String.length old - 1) s'
          else String c (replace_from old new 0 s')
      end
  end.

(** [s.replace('', new)]: [new] before every character and at the end. *)
Fixpoint interleave (new s : string) : string :=
  match s with
  | EmptyString => new
  | String c s' => new +:+ String c (interleave new s')
  end.

(** [s.replace(old, new)] *)
Definition replace (old new s : string) : string :=
  match old with
  | EmptyString => interleave new s
  | String _ _ => replace_from old new 0 s
  end.

(** [for (old, new) in subs: txt = txt.replace(old, new)] *)
Fixpoint substitute (subs : list (string * string)) (txt : string) : string :=
  match subs with
  | [] => txt
  | (old, new) :: rest => substitute rest (replace old new txt)
  end.

(** [s.split(d)[0]] for a one-character separator: what stands before the
    first [d]. *)
Fixpoint before_first (d : ascii) (s : string) : string :=
  match s with
  | EmptyString => EmptyString
  | String c s' => if Ascii.eqb c d then EmptyString else String c (before_first d s')
  end.

(** [old] stands somewhere in [s]. *)
Definition occurs (old s : string) : Prop := exists a b, s = a +:+ old +:+ b.

(** ** Files *)

Definition cr : ascii := ascii_of_nat 13.
Definition lf : ascii := ascii_of_nat 10.

(** What a file opened in text mode gives when it is read: a carriage
    return followed by a line feed, and a carriage return alone, are read
    as a line feed. *)
Fixpoint universal_newlines (s : string) : string :=
  match s with
  | EmptyString => EmptyString
  | String c s' =>
      if Ascii.eqb c cr then
        match s' with
        | String d s'' =>
            if Ascii.eqb d lf then String lf (universal_newlines s'')
            else String lf (universal_newlines s')
        | EmptyString => String lf EmptyString
        end
      else String c (universal_newlines s')
  end.

(** What a file opened in text mode stores when [text] is written: every
    line feed becomes [os.linesep], which is a carriage return and a line
    feed on Windows and a line feed elsewhere. *)
Fixpoint to_linesep (windows : bool) (text : string) : string :=
  match text with
  | EmptyString => EmptyString
  | String c text' =>
      if windows && Ascii.eqb c lf then String cr (String lf (to_linesep windows text'))
      else String c (to_linesep windows text')
  end.

Fixpoint has_char (c : ascii) (s : string) : bool :=
  match s with
  | EmptyString => false
  | String d s' => Ascii.eqb d c || has_char c s'
  end.

Section Files.
Context `{External}.
Variable host : Host.

(** [open(p).read()]: the file is opened in text mode.  Its bytes are
    taken to be text in the encoding of the locale. *)
Definition read_file (p : string) : M State string :=
  fun s =>
    match files (fs s) !! p with
    | Some stored => (Ok (universal_newlines stored), s)
    | None => (Raise (FileNotFoundError p), s)
    end.

(** [open(p, 'w').write(text)], in text mode; the directory of [p] is taken
    to exist. *)
Definition write_text (p text : string) : M State unit :=
  fun s =>
    (Ok tt, with_fs (write_file p (to_linesep (Package.windows host) text) (fs s)) s).

(** [Package.patch(fname, *subs)] *)
Definition patch (fname : string) (subs : list (string * string)) : M State unit :=
  let! txt := read_file fname in
  write_text fname (substitute subs txt).

(** [shutil.rmtree(root)] without [ignore_errors]: a tree that is not
    there raises.  (For a path that is a file Python raises
    [NotADirectoryError], another [OSError]; the two are not told apart
    here.) *)
Definition rmtree_strict (root : Path) : M State unit :=
  fun s =>
    if bool_decide (str root ∈ dirs (fs s)) then rmtree root s
    else (Raise (FileNotFoundError (str root)), s).

End Files.

(** ** build_qwt.py *)

(** The class attributes [QwtPackage] reads from the environment when the
    class is created: QWT_VERSION, QT_BUILD and QT_ARCHIVE_SUFFIX. *)
Record Qwt : Type := {
  qwt_version : string;
  qt_build : string;
  qt_archive_suffix : string
}.

Module QwtPackage.
Section Methods.
Context `{External}.
Variable host : Host.
Variable q : Qwt.

(** The object as the methods inherited from [Package] see it.  The class
    does not override [source_archives]; the [configuration_script] field
    is not read by the methods it inherits unchanged. *)
Definition self : Package :=
  {| name := Some "qwt"; version := Some (qwt_version q);
     use_vs_version_in_base_name := true;
     use_distribution_in_base_name := false;
     source_archives := [];
     configuration_script := None |}.

Definition qt_version : string := before_first "-" (qt_build q).

Definition qt_buildtype : option string :=
  if Package.windows host then Some "msvc2017_64"
  else if Package.linux host then Some "gcc_64"
  else if Package.macos host then Some "clang_64"
  else None.

Definition qt_install_dir : result Path :=
  truediv_obj (Package.toolbase host // "qt" // ("qt-" +:+ qt_build q) // qt_version)
              qt_buildtype.

Definition flags_block : string :=
  nl +:+ "QMAKE_CXXFLAGS += $$(CXXFLAGS)" +:+ nl +:+
  "QMAKE_CFLAGS += $$(CFLAGS)" +:+ nl +:+
  "QMAKE_LFLAGS += $$(LDFLAGS)" +:+ nl.

Definition extract_source_archives : M State unit :=
  let! where_ := Package.source_extracted host self in
  let! _ :=
    Package.extract_archive host self
      (Package.source_downloads_base host // ("qwt-" +:+ qwt_version q +:+ ".zip"))
      where_ in
  let! sources := Package.main_source_directory_path host self in
  let! t := read_file (str (sources // "qwtconfig.pri")) in
  let! installed := read (Package.install_directory host self) in
  let t := replace "/usr/local/qwt-$$QWT_VERSION" (str installed) t in
  let t := t +:+ flags_block in
  let! sources := Package.main_source_directory_path host self in
  let! _ := write_text host (str (sources // "qwtconfig.pri")) t in
  let! qt := lift qt_install_dir in
  let! _ := mkdir qt in
  Package.extract_archive host self
    (Package.source_downloads_base host //
       ("qt-" +:+ qt_build q +:+ "-" +:+ qt_archive_suffix q))
    (Package.toolbase host // "qt").

Definition configuration_script : result Path :=
  let? d := qt_install_dir in
  Ok (d // "bin" // ("qmake" +:+ (if Package.windows host then ".exe" else EmptyString))).

Definition arguments_to_configuration_script : M State (list string) :=
  let! sources := Package.main_source_directory_path host self in
  ret ["-makefile"; str (sources // "qwt.pro")].

Definition cxxflags : M State (list (option string)) :=
  let! flags := Package.cxxflags host in
  if Package.linux host then ret (flags ++ [Some "-Wno-deprecated-copy"])
  else ret flags.

(** The method of [Package], reading the [cxxflags] of this class. *)
Definition environment_for_configuration_script : M State (gmap string string) :=
  let! e := Package.export_flags "CFLAGS" (Package.cflags host) (environ host) in
  let! e := Package.export_flags "CXXFLAGS" cxxflags e in
  Package.export_flags "LDFLAGS" (Package.ldflags host) e.

Definition environment_for_build_command : M State (gmap string string) :=
  let! e := environment_for_configuration_script in
  ret (<["VERBOSE" := "1"]> e).

(** The method of [Package], reading the script, the arguments and the
    environment of this class; the script is a [Path], which is always
    true. *)
Definition run_configuration_script : M State unit :=
  let! script := lift configuration_script in
  let! _ := make_executable (str script) in
  let! arguments := arguments_to_configuration_script in
  let! environment := environment_for_configuration_script in
  let! where_ := Package.build_directory_path host self in
  Package.system host self "run_configuration_script" ([str script] ++ arguments)
                 (Some where_) (Some environment) false.

(** The method of [GnuMakeMixin], with the environment of this class. *)
Definition run_build_command : M State unit :=
  let! environment := environment_for_build_command in
  let! where_ := Package.build_directory_path host self in
  Package.system host self "run_build_command"
                 ["make"; "-j" +:+ decimal (cpu_count host)]
                 (Some where_) (Some environment) false.

(** The method of [MakeInstallMixin], with the environment of this class. *)
Definition run_install_command : M State unit :=
  let! environment := environment_for_build_command in
  let! where_ := Package.build_directory_path host self in
  Package.system host self "run_install_command" ["make"; "install"]
                 (Some where_) (Some environment) false.

(** The nine methods as the class binds them, in the order of the fields
    of [Pipeline]. *)
Definition pipeline : Pipeline State :=
  Build_Pipeline State
    (Package.cleanup host self)
    (Package.fetch_source_archives host self)
    extract_source_archives
    (Package.patch_sources self)
    run_configuration_script
    run_build_command
    run_install_command
    (Package.verify self)
    (Package.create_archive host self).

Definition main : M State unit :=
  let! _ :=
    try_except
      (let! installed := read (Package.install_directory host self) in
       let! _ := rmtree_strict installed in
       let! _ := rmtree_strict (Package.toolbase host // "qt") in
       rmtree_strict (Package.source_extracted_base host))
      (fun e => if is_OSError e then Some (ret tt) else None) in
  build pipeline.

End Methods.
End QwtPackage.

(** A method that asks nothing of the network. *)
Definition keeps_requests `{External} {A : Type} (m : M State A) : Prop :=
  forall s, requests (snd (m s)) = requests s.

(** Concrete inputs for the Qwt package. *)
Definition qwt_6_1_4 : Qwt :=
  {| qwt_version := "6.1.4"; qt_build := "5.12.7-1"; qt_archive_suffix := "linux.tar.xz" |}.

Definition qwt_unpacked (exits : list Z) : @State scripted :=
  @mkState scripted
    {| files :=
         {[ "/opt/ccdc/third-party-sources/extracted/qwt/qwt-6.1.4/qwtconfig.pri" :=
              "QWT_INSTALL_PREFIX = /usr/local/qwt-$$QWT_VERSION" ]};
       dirs := {[ "/opt/ccdc/third-party/qt" ]};
       executable := ∅ |}
    exits [] [] None.

(** A host without network: every [urlopen] raises. *)
Definition offline : External := {|
  Outside := list Z;
  exec := fun _ f o =>
            match o with
            | [] => (0%Z, EmptyString, f, [])
            | rc :: o' => (rc, EmptyString, f, o')
            end;
  urlopen := fun url o => (Failed (URLError url), o);
  check_output := fun c _ _ => Raise (CalledProcessError 127 [c] EmptyString)
|}.

(** A network that drops the connection after the first two bytes of
    every download. *)
Definition dropping : External := {|
  Outside := list Z;
  exec := fun _ f o =>
            match o with
            | [] => (0%Z, EmptyString, f, [])
            | rc :: o' => (rc, EmptyString, f, o')
            end;
  urlopen := fun url o =>
               (Interrupted "PK" (ConnectionResetError "Connection reset by peer"), o);
  check_output := fun c _ _ => Raise (CalledProcessError 127 [c] EmptyString)
|}.

(** A Mac: xcrun answers with the path of the SDK and a newline. *)
Definition with_xcrun : External := {|
  Outside := list Z;
  exec := fun _ f o =>
            match o with
            | [] => (0%Z, EmptyString, f, [])
            | rc :: o' => (rc, EmptyString, f, o')
            end;
  urlopen := fun url o => (Delivered url, o);
  check_output := fun c _ _ =>
                    if String.eqb c "xcrun --show-sdk-path"
                    then Ok ("/Library/SDKs/MacOSX.sdk" +:+ nl)
                    else Raise (CalledProcessError 127 [c] EmptyString)
|}.

(** An instance of [Package] itself, as the module makes one when it is
    loaded: no name, no version. *)
Definition base_package : Package :=
  {| name := None; version := None;
     use_vs_version_in_base_name := true;
     use_distribution_in_base_name := false;
     source_archives := [];
     configuration_script := None |}.

(** A package whose two source archives are zip files. *)
Definition two_zips : Package :=
  package_of "qwt" "6.1.4"
    [("qwt-6.1.4.zip", "https://example.org/qwt-6.1.4.zip");
     ("extras.zip", "https://example.org/extras.zip")].

(** Left-overs of an earlier build, and a file that is not one. *)
Definition with_leftovers : @State scripted :=
  @mkState scripted
    {| files :=
         <[ "/opt/ccdc/third-party-sources/extracted/qwt/qwt-6.1.4/qwt.pro" := "old" ]>
         (<[ "/opt/ccdc/third-party-sources/builds/qwt/Makefile" := "old" ]>
          {[ "/opt/ccdc/third-party-sources/downloads/qwt-6.1.4.zip" := "PK" ]});
       dirs := ∅; executable := ∅ |}
    [] [] [] None.

Definition mac_host : Host := host_of "darwin" [].

Definition mac_start : @State with_xcrun := @mkState with_xcrun empty_fs [] [] [] None.

Definition mac_cached : @State with_xcrun :=
  @mkState with_xcrun empty_fs [] [] [] (Some "/Library/SDKs/MacOSX.sdk").

Definition offline_start : @State offline := @mkState offline empty_fs [] [] [] None.

Definition dropping_start : @State dropping := @mkState dropping empty_fs [] [] [] None.

(** A build started with a slash in BUILD_BUILDNUMBER. *)
Definition slash_host : Host := host_of "linux" [("BUILD_BUILDNUMBER", "a/b")].

(** A package whose name is an absolute path. *)
Definition srv : Package := package_of "/srv" "1.0" [].

(** A configuration file with Windows line ends. *)
Definition dos_file : @State scripted :=
  @mkState scripted
    {| files := {[ "/tmp/qwtconfig.pri" :=
                     String "a" (String cr (String lf (String "b" EmptyString))) ]};
       dirs := ∅; executable := ∅ |}
    [] [] [] None.

(** What a download run may do to the state: files that exist keep their
    content, directories and the journal of commands stay as they are. *)
Definition preserved `{External} (s s' : State) : Prop :=
  (forall k c, files (fs s) !! k = Some c -> files (fs s') !! k = Some c) /\
  dirs (fs s') = dirs (fs s) /\
  commands s' = commands s.

(** Closes the case where the run ends: the journal and the result are
    read off the goal, and the derivation of [Runs] follows the equations of
    the stages that ran. *)
Ltac stop_here :=
  do 3 eexists; split; [reflexivity|]; split; [reflexivity|];
  repeat (eapply Runs_next; [eassumption|]);
  first [eapply Runs_abort; eassumption | apply Runs_done].

(** * Properties *)

(** ** Auxiliary facts *)

Lemma first_non_str_None_inv i l :
  first_non_str i l = None -> forall o, In o l -> exists x, o = Some x.
Proof.
  revert i. induction l as [|[x|] l IH]; simpl; intros i Hf o Hin.
  - contradiction.
  - destruct Hin as [<-|Hin]; [eauto | eapply IH; eauto].
  - discriminate.
Qed.

Lemma str_join_Ok_inv sep0 l b :
  str_join sep0 l = Ok b ->
  (forall o, In o l -> exists x, o = Some x) /\ b = join sep0 (omap id l).
Proof.
  unfold str_join. destruct (first_non_str 0 l) eqn:Hf; [discriminate|].
  intros [= <-]. split; [eapply first_non_str_None_inv; eauto | reflexivity].
Qed.

Lemma str_join_None_raises sep0 l :
  In None l -> exists msg, str_join sep0 l = Raise (TypeError msg).
Proof.
  intros Hin. unfold str_join. destruct (first_non_str 0 l) eqn:Hf.
  - eauto.
  - destruct (first_non_str_None_inv _ _ Hf _ Hin) as [x Hx]. discriminate.
Qed.

Section PropertyFacts.
Context `{External}.
Variable host : Host.

(** ** C5 *)

(** C5: with name "qwt", version "6.1.4", [sys.platform] "linux", the
    default flags and neither BUILD_BUILDNUMBER nor BUILD_VS_VERSION in
    the environment, [output_base_name] is
    "qwt-6.1.4-do-not-use-me-developer-version-linux". *)
Theorem output_base_name_developer_linux (self : Package) (s : State) :
  name self = Some "qwt" ->
  version self = Some "6.1.4" ->
  sys_platform host = "linux" ->
  use_vs_version_in_base_name self = true ->
  use_distribution_in_base_name self = false ->
  environ host !! "BUILD_BUILDNUMBER" = None ->
  environ host !! "BUILD_VS_VERSION" = None ->
  Package.output_base_name host self s =
    Ok "qwt-6.1.4-do-not-use-me-developer-version-linux".
Proof.
  intros Hn Hv Hp Hvs Hd Hb Hvsv.
  unfold Package.output_base_name, Package.platform.
  rewrite Hn, Hv, Hp, Hvs, Hd, Hb, Hvsv. reflexivity.
Qed.

(** ** C6 *)

(** C6: [visual_studio_generator_for_build] answers "Visual Studio 15 2017"
    for BUILD_VS_VERSION "2017", "Visual Studio 16 2019" when the variable
    is unset or is "2019", and raises for every other value. *)
Theorem visual_studio_generator_for_build_cases :
  (environ host !! "BUILD_VS_VERSION" = Some "2017" ->
   CMakeMixin.visual_studio_generator_for_build host = Ok "Visual Studio 15 2017") /\
  (environ host !! "BUILD_VS_VERSION" = None ->
   CMakeMixin.visual_studio_generator_for_build host = Ok "Visual Studio 16 2019") /\
  (environ host !! "BUILD_VS_VERSION" = Some "2019" ->
   CMakeMixin.visual_studio_generator_for_build host = Ok "Visual Studio 16 2019") /\
  (forall v, environ host !! "BUILD_VS_VERSION" = Some v ->
             v <> "2017" -> v <> "2019" ->
   CMakeMixin.visual_studio_generator_for_build host =
     Raise (Exception ("Invalid value for BUILD_VS_VERSION: " +:+ v))).
Proof.
  unfold CMakeMixin.visual_studio_generator_for_build.
  repeat split.
  - intros ->. reflexivity.
  - intros ->. reflexivity.
  - intros ->. reflexivity.
  - intros v -> H17 H19.
    destruct (String.eqb_spec v "2019"); [contradiction|].
    destruct (String.eqb_spec v "2017"); [contradiction|].
    reflexivity.
Qed.

(** ** C10 *)

(** C10: when the package asks for the distribution in its base name and
    the host is Linux but neither CentOS nor Ubuntu, [platform] returns
    [None] and [output_base_name] raises [TypeError]. *)
Theorem platform_None_makes_output_base_name_raise (self : Package) (s : State) :
  use_distribution_in_base_name self = true ->
  Package.linux host = true ->
  Package.centos host s = false ->
  Package.ubuntu host s = Ok false ->
  Package.platform host self s = Ok None /\
  exists msg, Package.output_base_name host self s = Raise (TypeError msg).
Proof.
  intros Hd Hl Hc Hu.
  assert (Hp : Package.platform host self s = Ok None).
  { unfold Package.platform. rewrite Hd, Hl, Hc, Hu. reflexivity. }
  split; [exact Hp|].
  unfold Package.output_base_name. rewrite Hp. simpl.
  apply str_join_None_raises.
  destruct (environ host !! "BUILD_BUILDNUMBER"),
           (use_vs_version_in_base_name self),
           (environ host !! "BUILD_VS_VERSION"); simpl; tauto.
Qed.

(** ** C7 *)

Lemma output_base_name_needs_name (self : Package) (s : State) (b : string) :
  Package.output_base_name host self s = Ok b -> exists n, name self = Some n.
Proof.
  unfold Package.output_base_name.
  destruct (Package.platform host self s) as [p|e]; simpl; [|discriminate].
  intros Hj. apply str_join_Ok_inv in Hj as [Hall _].
  apply Hall.
  destruct (environ host !! "BUILD_BUILDNUMBER"),
           (use_vs_version_in_base_name self),
           (environ host !! "BUILD_VS_VERSION"); simpl; tauto.
Qed.

Lemma properties_built_on_output_base_name
    (self : Package) (s : State) (b : string) :
  Package.output_base_name host self s = Ok b ->
  exists n,
    name self = Some n /\
    Package.install_directory host self s = Ok (Package.toolbase host // n // b) /\
    Package.output_archive_filename host self s = Ok (b +:+ ".tar.gz").
Proof.
  intros Hb. destruct (output_base_name_needs_name _ _ _ Hb) as [n Hn].
  exists n. split; [exact Hn|]. split.
  - unfold Package.install_directory. rewrite Hn, Hb. reflexivity.
  - unfold Package.output_archive_filename. rewrite Hb. reflexivity.
Qed.

Lemma pieces_from_without_separator (d : ascii) (s : string) :
  Pathlib.find d s = None -> Pathlib.pieces_from d s = (s, []).
Proof.
  induction s as [|c s IH]; simpl; [reflexivity|].
  destruct (Ascii.eqb c d); [discriminate|].
  destruct (Pathlib.find d s); [discriminate|]. intros _. rewrite IH; reflexivity.
Qed.

Lemma has_separator_false_inv (f : flavour) (s : string) :
  Pathlib.has_separator f s = false ->
  Pathlib.to_sep f s = s /\ Pathlib.find (Pathlib.sep_char f) s = None /\
  Pathlib.is_at 0 (Pathlib.sep_char f) s = false.
Proof.
  intros Hno.
  assert (Hmain : Pathlib.to_sep f s = s /\ Pathlib.find (Pathlib.sep_char f) s = None).
  { induction s as [|c s IH]; simpl in *; [auto|].
    apply orb_false_elim in Hno as [Hno Hrest].
    apply orb_false_elim in Hno as [Hslash Hback].
    destruct (IH Hrest) as [-> ->].
    destruct f; simpl; rewrite ?Hslash, ?Hback; auto. }
  destruct Hmain as [Hto Hfind]. split; [exact Hto|]. split; [exact Hfind|].
  destruct s as [|c s]; [reflexivity|]. unfold Pathlib.is_at. simpl.
  simpl in Hfind.
  destruct (Ascii.eqb c (Pathlib.sep_char f)); [discriminate | reflexivity].
Qed.

Lemma split_last_app (a front : string) (c : ascii) :
  Pathlib.split_last a = (front, Some c) -> a = front +:+ String c EmptyString.
Proof.
  revert front. induction a as [|x a IH]; intros front; simpl; [discriminate|].
  destruct a as [|y a].
  - intros [= <- <-]. reflexivity.
  - destruct (Pathlib.split_last (String y a)) as [front' final] eqn:Hs.
    intros [= <- ->].
    change (String x (String y a) = String x (front' +:+ String c EmptyString)).
    f_equal. apply IH. reflexivity.
Qed.

Lemma split_anchor_app (f : flavour) (a : string) :
  fst (Pathlib.split_anchor f a) +:+ snd (Pathlib.split_anchor f a) = a.
Proof.
  unfold Pathlib.split_anchor. destruct f; [reflexivity|].
  assert (Hnil : forall x : string, x +:+ EmptyString = x).
  { induction x as [|c x IH]; [reflexivity | exact (f_equal (String c) IH)]. }
  destruct (Pathlib.split_last a) as [front [c|]] eqn:Hs; simpl; [|apply Hnil].
  destruct (Ascii.eqb_spec c Pathlib.backslash) as [->|_]; simpl; [|apply Hnil].
  symmetry. apply split_last_app. exact Hs.
Qed.

(** An operand that is a single component has no anchor and is its own
    and only component. *)
Lemma parse_single_component (f : flavour) (s : string) :
  Pathlib.single_component f s = true ->
  Pathlib.parse f s = (EmptyString, EmptyString, [s]).
Proof.
  unfold Pathlib.single_component. intros Hs.
  apply andb_prop in Hs as [Hs Hdrive]. apply andb_prop in Hs as [Hkept Hsep].
  apply negb_true_iff in Hsep, Hdrive.
  destruct (has_separator_false_inv f s Hsep) as (Hto & Hfind & Hfirst).
  unfold Pathlib.parse. destruct s as [|c s]; [discriminate|]. rewrite Hto.
  assert (Hroot : Pathlib.splitroot f (String c s) =
                  (EmptyString, EmptyString, String c s)).
  { destruct f; simpl in *.
    - unfold Pathlib.splitroot_posix. rewrite Hfirst. reflexivity.
    - unfold Pathlib.splitroot_windows. rewrite Hfirst, andb_false_r.
      rewrite Hdrive, Hfirst, andb_false_r. reflexivity. }
  rewrite Hroot. unfold Pathlib.components, Pathlib.pieces.
  rewrite (pieces_from_without_separator _ _ Hfind). simpl. rewrite Hkept. reflexivity.
Qed.

(** On an operand that is a single component, pathlib's [/] appends the
    operand as it is. *)
Lemma joinpath_single_component (p : Path) (s : string) :
  Pathlib.single_component (path_flavour p) s = true ->
  Pathlib.joinpath p s = p // s.
Proof.
  intros Hs. unfold Pathlib.joinpath.
  pose proof (split_anchor_app (path_flavour p) (anchor p)) as Hanchor.
  destruct (Pathlib.split_anchor (path_flavour p) (anchor p)) as [drv root].
  rewrite (parse_single_component _ _ Hs). simpl in *. rewrite Hanchor. reflexivity.
Qed.

Lemma toolbase_flavour : path_flavour (Package.toolbase host) = Package.host_flavour host.
Proof.
  unfold Package.toolbase, Package.host_flavour.
  destruct (Package.windows host); reflexivity.
Qed.

(** C7, as the code has it: when [output_base_name] is [b], the install
    directory is [toolbase / name / b] with the [/] of pathlib and the
    archive is called [b] followed by ".tar.gz"; and when the name and [b]
    are single path components (not empty, not ".", without a separator
    and, on Windows, without a drive letter and colon at the start),
    nothing is split or dropped by [/]: the components of the install
    directory are those of [toolbase] followed by the name and by [b], so
    it lies in [toolbase/name] and its last component is [b]. *)
Theorem install_directory_nests_for_single_components
    (self : Package) (s : State) (b : string) :
  Package.output_base_name host self s = Ok b ->
  exists n d,
    name self = Some n /\
    PackagePaths.install_directory host self s = Ok d /\
    d = Pathlib.joinpath (Pathlib.joinpath (Package.toolbase host) n) b /\
    Package.output_archive_filename host self s = Ok (b +:+ ".tar.gz") /\
    (Pathlib.single_component (Package.host_flavour host) n = true ->
     Pathlib.single_component (Package.host_flavour host) b = true ->
     parts d = parts (Package.toolbase host) ++ [n; b] /\
     anchor d = anchor (Package.toolbase host) /\
     name_of d = b /\
     Package.install_directory host self s = Ok d).
Proof.
  intros Hb.
  destruct (properties_built_on_output_base_name _ _ _ Hb) as (n & Hn & Hi & Ha).
  exists n, (Pathlib.joinpath (Pathlib.joinpath (Package.toolbase host) n) b).
  split; [exact Hn|]. split; [|split; [reflexivity|split; [exact Ha|]]].
  - unfold PackagePaths.install_directory, Pathlib.joinpath_obj.
    rewrite Hn, Hb. reflexivity.
  - intros Hsn Hsb. rewrite <- toolbase_flavour in Hsn, Hsb.
    rewrite (joinpath_single_component (Package.toolbase host) n Hsn).
    rewrite (joinpath_single_component (Package.toolbase host // n) b Hsb).
    split; [|split; [reflexivity|split; [|exact Hi]]].
    + simpl. rewrite <- app_assoc. reflexivity.
    + unfold name_of. simpl. apply last_last.
Qed.

(** When [output_base_name] raises, so do the two properties built on it. *)
Lemma install_directory_raises_with_output_base_name
    (self : Package) (s : State) (e : exn) :
  Package.output_base_name host self s = Raise e ->
  raises (Package.install_directory host self s) /\
  Package.output_archive_filename host self s = Raise e.
Proof.
  intros He. unfold Package.install_directory, Package.output_archive_filename.
  rewrite He. destruct (truediv_obj _ _); simpl; auto.
Qed.

End PropertyFacts.

(** ** Running one command *)

Section SystemFacts.
Context `{External}.
Variable host : Host.

(** [system] starts exactly one child process, with the command, the
    working directory and the environment it was given, asks nothing of
    the network, and raises [CalledProcessError] exactly when the exit
    status is not zero. *)
Lemma system_runs_once (self : Package) (task : string) (command : list string)
    (where_ : option Path) (environment : option (gmap string string))
    (append_log : bool) (s : State) :
  exists (rc : Z) (output : string) (s' : State),
    Package.system host self task command where_ environment append_log s =
      (if Z.eqb rc 0 then Ok tt else Raise (CalledProcessError rc command output), s') /\
    commands s' =
      commands s ++ [{| argv := command; cwd := str <$> where_; env := environment |}] /\
    requests s' = requests s /\
    cached_sdkroot s' = cached_sdkroot s.
Proof.
  unfold Package.system.
  destruct (exec _ _ _) as [[[rc output] fs1] outside1].
  exists rc, output. eexists. split.
  - destruct (Z.eqb rc 0); reflexivity.
  - auto.
Qed.

Lemma system_raises_CalledProcessError self task command where_ environment
    append_log s e s' :
  Package.system host self task command where_ environment append_log s =
    (Raise e, s') ->
  exists rc output, e = CalledProcessError rc command output /\ rc <> 0%Z.
Proof.
  intros Hs.
  destruct (system_runs_once self task command where_ environment append_log s)
    as (rc & output & s1 & Heq & _).
  rewrite Heq in Hs. destruct (Z.eqb_spec rc 0); [discriminate|].
  injection Hs as <- <-. eauto.
Qed.

End SystemFacts.

(** ** Extracting an archive *)

Section ExtractFacts.
Context `{External}.
Variable host : Host.

(** C1: what the code does on Windows for an archive whose suffix selects
    tar.  The flags have become a [str], so building the command list
    raises [TypeError] inside the [try]; the handler only accepts
    [CalledProcessError], the exception leaves [extract_archive], and no
    tar process is ever started: the state is the one before the call. *)
Theorem extract_archive_windows_tar_raises_TypeError
    (self : Package) (path where_ : Path) (s : State) :
  Package.windows host = true ->
  has_suffix ".zip" path = false ->
  has_suffix ".7z" path = false ->
  has_suffix ".bz2" path = true \/ has_suffix ".gz" path = true \/
  has_suffix ".tgz" path = true \/ has_suffix ".xz" path = true \/
  has_suffix ".zst" path = true ->
  Package.extract_archive host self path where_ s = (Raise (TypeError list_plus_str), s).
Proof.
  intros Hw Hzip H7z Htar.
  unfold Package.extract_archive. rewrite Hw, Hzip, H7z.
  destruct (has_suffix ".bz2" path); [reflexivity|].
  destruct (has_suffix ".gz" path); [reflexivity|].
  destruct (has_suffix ".tgz" path); [reflexivity|].
  destruct (has_suffix ".xz" path); [reflexivity|].
  destruct (has_suffix ".zst" path); [reflexivity|].
  intuition discriminate.
Qed.

(** C2: what the code does for an archive with the suffix .7z and no
    other recognised suffix.  The 7z tool is run, and since nothing
    returns after it, the chain of tar suffixes is tried next and ends in
    the unsupported-format error: the call raises whether 7z succeeded or
    not. *)
Theorem extract_archive_7z_always_raises
    (self : Package) (path where_ : Path) (s : State) :
  has_suffix ".zip" path = false ->
  has_suffix ".7z" path = true ->
  has_suffix ".bz2" path = false -> has_suffix ".gz" path = false ->
  has_suffix ".tgz" path = false -> has_suffix ".xz" path = false ->
  has_suffix ".zst" path = false ->
  let seven_zip := ["7z"; "x"; "-aoa"; "-o" +:+ str where_; str path] in
  let ran := Package.system host self "extract_archive" seven_zip None None false s in
  Package.extract_archive host self path where_ s =
    (match fst ran with
     | Ok _ => Raise (AttributeError ("Can't extract " +:+ str path))
     | Raise e => Raise e
     end, snd ran) /\
  commands (snd ran) = commands s ++ [{| argv := seven_zip; cwd := None; env := None |}] /\
  raises (fst (Package.extract_archive host self path where_ s)).
Proof.
  intros Hzip H7z Hbz2 Hgz Htgz Hxz Hzst seven_zip ran.
  assert (Heq : Package.extract_archive host self path where_ s =
                (match fst ran with
                 | Ok _ => Raise (AttributeError ("Can't extract " +:+ str path))
                 | Raise e => Raise e
                 end, snd ran)).
  { unfold Package.extract_archive.
    rewrite Hzip, H7z, Hbz2, Hgz, Htgz, Hxz, Hzst.
    unfold bind at 1. fold seven_zip. fold ran.
    destruct ran as [[[]|e] s1]; reflexivity. }
  split; [exact Heq|]. split.
  - destruct (system_runs_once host self "extract_archive" seven_zip None None false s)
      as (rc & output & s1 & Hrun & Hc & _).
    subst ran. rewrite Hrun. exact Hc.
  - rewrite Heq. simpl. destruct (fst ran); exact I.
Qed.

(** C4, as the code has it: a path with .zip among its suffixes is
    unpacked with unzip in the target directory; for a path without .zip
    and .7z, on a platform that is not Windows, the first of .bz2, .gz,
    .tgz, .xz and .zst found among the suffixes, tried in this order,
    selects the one tar command that is run in the target directory; and
    a path with none of the seven suffixes raises the unsupported-format
    error without running anything. *)
Theorem extract_archive_dispatch
    (self : Package) (path where_ : Path) (s : State) :
  let run command :=
    Package.system host self "extract_archive" command (Some where_) None false s in
  (has_suffix ".zip" path = true ->
   Package.extract_archive host self path where_ s =
     run ["unzip"; "-q"; "-o"; str path]) /\
  (Package.windows host = false ->
   has_suffix ".zip" path = false -> has_suffix ".7z" path = false ->
   (has_suffix ".bz2" path = true ->
    Package.extract_archive host self path where_ s = run ["tar"; "jxf"; str path]) /\
   (has_suffix ".bz2" path = false ->
    has_suffix ".gz" path = true \/ has_suffix ".tgz" path = true ->
    Package.extract_archive host self path where_ s = run ["tar"; "zxf"; str path]) /\
   (has_suffix ".bz2" path = false -> has_suffix ".gz" path = false ->
    has_suffix ".tgz" path = false -> has_suffix ".xz" path = true ->
    Package.extract_archive host self path where_ s = run ["tar"; "xf"; str path]) /\
   (has_suffix ".bz2" path = false -> has_suffix ".gz" path = false ->
    has_suffix ".tgz" path = false -> has_suffix ".xz" path = false ->
    has_suffix ".zst" path = true ->
    Package.extract_archive host self path where_ s =
      run ["tar"; "--use-compress-program=zstd"; "-xf"; str path])) /\
  (has_suffix ".zip" path = false -> has_suffix ".7z" path = false ->
   has_suffix ".bz2" path = false -> has_suffix ".gz" path = false ->
   has_suffix ".tgz" path = false -> has_suffix ".xz" path = false ->
   has_suffix ".zst" path = false ->
   Package.extract_archive host self path where_ s =
     (Raise (AttributeError ("Can't extract " +:+ str path)), s)).
Proof.
  intros run. subst run. unfold Package.extract_archive.
  split; [|split].
  - intros ->. reflexivity.
  - intros Hw Hzip H7z. rewrite Hw, Hzip, H7z.
    repeat split.
    + intros ->. unfold bind, ret, lift. simpl.
      destruct (Package.system _ _ _ _ _ _ _ _) as [[[]|e] s']; reflexivity.
    + intros -> [-> | ->]; unfold bind, ret, lift; simpl.
      * destruct (Package.system _ _ _ _ _ _ _ _) as [[[]|e] s']; reflexivity.
      * destruct (has_suffix ".gz" path); simpl;
          destruct (Package.system _ _ _ _ _ _ _ _) as [[[]|e] s']; reflexivity.
    + intros -> -> -> ->. unfold bind, ret, lift. simpl.
      destruct (Package.system _ _ _ _ _ _ _ _) as [[[]|e] s']; reflexivity.
    + intros -> -> -> -> ->. unfold bind, ret, lift. simpl.
      destruct (Package.system _ _ _ _ _ _ _ _) as [[[]|e] s']; reflexivity.
  - intros -> -> -> -> -> -> ->. reflexivity.
Qed.

End ExtractFacts.

(** ** Creating the archive *)

Section ArchiveFacts.
Context `{External}.
Variable host : Host.

Lemma strip_prefix_app (pre rest : list string) :
  strip_prefix pre (pre ++ rest) = Some rest.
Proof.
  induction pre as [|x pre IH]; simpl; [reflexivity|].
  rewrite String.eqb_refl. exact IH.
Qed.

Lemma relative_to_child (p : Path) (b : string) :
  relative_to (p // b) p = Ok (mkPath (path_flavour p) EmptyString [b]).
Proof.
  unfold relative_to. simpl. rewrite String.eqb_refl, strip_prefix_app. reflexivity.
Qed.


End ArchiveFacts.

(** ** The pipeline *)

Section BuildFacts.
Context {S : Type}.
Variable self : Pipeline S.

Lemma Runs_prefix todo s executed r s' :
  Runs self todo s executed r s' ->
  exists rest, todo = executed ++ rest /\
               match r with Ok _ => rest = [] | Raise _ => True end.
Proof.
  induction 1 as [s|st rest s s1 executed r s2 Hm Hr (rest' & -> & Hrest)|st rest s e s1 Hm].
  - exists []. auto.
  - exists rest'. auto.
  - exists rest. auto.
Qed.

(** C3: [build] enters the nine stages in the fixed order, each at most
    once; when every stage returns, all nine have run; when a stage
    raises, [build] raises the same exception in the state that stage
    left and no later stage is entered.  In particular, when
    [run_configuration_script] is the stage that raises,
    [run_build_command] is never entered. *)
Theorem build_runs_stages_in_order_until_first_failure (s : S) :
  exists (executed : list stage) (r : result unit) (s' : S),
    build (observed self) ([], s) = (r, (executed, s')) /\
    build self s = (r, s') /\
    Runs self stages s executed r s' /\
    (exists rest, stages = executed ++ rest /\
                  match r with Ok _ => rest = [] | Raise _ => True end) /\
    (forall e, r = Raise e -> last executed = Some RunConfigurationScript ->
               ~ In RunBuildCommand executed).
Proof.
  assert (Hmain : exists executed r s',
             build (observed self) ([], s) = (r, (executed, s')) /\
             build self s = (r, s') /\
             Runs self stages s executed r s').
  { unfold build, bind, observed, logged, stages; simpl.
    destruct (cleanup self s) as [[[]|e] s1] eqn:H1; simpl; [|stop_here].
    destruct (fetch_source_archives self s1) as [[[]|e] s2] eqn:H2; simpl; [|stop_here].
    destruct (extract_source_archives self s2) as [[[]|e] s3] eqn:H3; simpl; [|stop_here].
    destruct (patch_sources self s3) as [[[]|e] s4] eqn:H4; simpl; [|stop_here].
    destruct (run_configuration_script self s4) as [[[]|e] s5] eqn:H5; simpl; [|stop_here].
    destruct (run_build_command self s5) as [[[]|e] s6] eqn:H6; simpl; [|stop_here].
    destruct (run_install_command self s6) as [[[]|e] s7] eqn:H7; simpl; [|stop_here].
    destruct (verify self s7) as [[[]|e] s8] eqn:H8; simpl; [|stop_here].
    destruct (create_archive self s8) as [[[]|e] s9] eqn:H9; simpl; stop_here. }
  destruct Hmain as (executed & r & s' & Ho & Hb & HR).
  exists executed, r, s'. repeat split; try assumption.
  - eapply Runs_prefix; eauto.
  - intros e -> Hlast Hin.
    destruct (Runs_prefix _ _ _ _ _ HR) as (rest & Hst & _).
    unfold stages in Hst.
    do 10 (try (destruct executed as [|? executed]; simplify_eq/=;
                try solve [intuition discriminate])).
Qed.


End BuildFacts.

(** ** Fetching the source archives *)

Lemma append_inj_l (a x y : string) : a +:+ x = a +:+ y -> x = y.
Proof.
  induction a as [|c a IH]; simpl; [tauto|].
  intros [= Heq]. auto.
Qed.

Lemma path_exists_false_lookup (f : FileSystem) (k : string) :
  path_exists f k = false -> files f !! k = None.
Proof.
  unfold path_exists. intros Hp. apply orb_false_elim in Hp as [Hp _].
  apply bool_decide_eq_false in Hp. apply eq_None_not_Some. exact Hp.
Qed.

Lemma path_exists_mono (f f' : FileSystem) (k : string) :
  (forall k c, files f !! k = Some c -> files f' !! k = Some c) ->
  dirs f' = dirs f ->
  path_exists f k = true -> path_exists f' k = true.
Proof.
  unfold path_exists. intros Hfiles Hdirs Hp.
  apply orb_true_iff in Hp as [Hp|Hp]; apply orb_true_iff.
  - left. apply bool_decide_eq_true in Hp as [c Hc].
    apply bool_decide_eq_true. exists c. auto.
  - right. rewrite Hdirs. exact Hp.
Qed.

Lemma path_exists_write_eq (f : FileSystem) (k c : string) :
  path_exists (write_file k c f) k = true.
Proof.
  unfold path_exists, write_file. simpl. apply orb_true_iff. left.
  apply bool_decide_eq_true. exists c. apply lookup_insert_eq.
Qed.

Lemma path_exists_write_ne (f : FileSystem) (k k' c : string) :
  k <> k' -> path_exists (write_file k c f) k' = path_exists f k'.
Proof.
  intros Hne. unfold path_exists, write_file. simpl.
  rewrite lookup_insert_ne by exact Hne. reflexivity.
Qed.

Section FetchFacts.
Context `{External}.
Variable host : Host.

Lemma preserved_refl (s : State) : preserved s s.
Proof. unfold preserved. auto. Qed.

Lemma preserved_trans (s1 s2 s3 : State) :
  preserved s1 s2 -> preserved s2 s3 -> preserved s1 s3.
Proof.
  unfold preserved. intros (Hf & Hd & Hc) (Hf' & Hd' & Hc').
  repeat split; [auto | congruence | congruence].
Qed.

Lemma preserved_exists (s s' : State) (k : string) :
  preserved s s' -> path_exists (fs s) k = true -> path_exists (fs s') k = true.
Proof. intros (Hf & Hd & _). apply path_exists_mono; assumption. Qed.

(** When every file is there, the loop does nothing at all. *)
Lemma fetch_items_all_present (items : list (string * string)) (s : State) :
  (forall f u, In (f, u) items -> path_exists (fs s) (Package.download_path host f) = true) ->
  Package.fetch_items host items s = (Ok tt, s).
Proof.
  induction items as [|[f u] items IH]; intros Hall; simpl; [reflexivity|].
  rewrite (Hall f u) by (left; reflexivity).
  apply IH. intros f' u' Hin. apply (Hall f' u'). right. exact Hin.
Qed.

(** A download leaves what was there as it was. *)
Lemma preserved_stored (f u content : string) (outside1 : Outside) (s : State) :
  path_exists (fs s) (Package.download_path host f) = false ->
  preserved s (Package.stored host f content (asked u outside1 s)).
Proof.
  intros Hhead. repeat split; try reflexivity.
  intros k c Hk. simpl. rewrite lookup_insert_ne; [exact Hk|].
  intros <-. apply path_exists_false_lookup in Hhead. congruence.
Qed.

(** The loop follows the contract. *)
Lemma fetch_items_Fetches (items : list (string * string)) :
  forall (s s' : State) (r : result unit),
    Package.fetch_items host items s = (r, s') -> Fetches host items s r s'.
Proof.
  induction items as [|[f0 u0] items IH]; intros s s' r Hrun; simpl in Hrun.
  - injection Hrun as <- <-. constructor.
  - destruct (path_exists (fs s) (Package.download_path host f0)) eqn:Hhead.
    + apply Fetches_skip; auto.
    + destruct (urlopen u0 (outside s)) as [[e|body|partial e] outside1] eqn:Hopen.
      * injection Hrun as <- <-. eapply Fetches_failed; eauto.
      * eapply Fetches_download; eauto.
      * injection Hrun as <- <-. eapply Fetches_interrupted; eauto.
Qed.

(** The contract is met by the loop only: a run that follows it is the
    run of the loop. *)
Lemma Fetches_fetch_items (items : list (string * string)) (s s' : State)
    (r : result unit) :
  Fetches host items s r s' -> Package.fetch_items host items s = (r, s').
Proof.
  induction 1 as [s|f u rest s r s' Hhead _ IH|f u rest s body o1 r s' Hhead Hopen _ IH
                 |f u rest s e o1 Hhead Hopen|f u rest s partial e o1 Hhead Hopen];
    simpl; try rewrite Hhead; try rewrite Hopen; auto.
Qed.

Lemma fetch_items_run (items : list (string * string)) :
  forall (s s' : State) (r : result unit),
    Package.fetch_items host items s = (r, s') ->
    preserved s s' /\
    exists urls,
      requests s' = requests s ++ urls /\
      (forall u, In u urls ->
         exists f, In (f, u) items /\ path_exists (fs s) (Package.download_path host f) = false) /\
      (r = Ok tt ->
         forall f u, In (f, u) items -> path_exists (fs s') (Package.download_path host f) = true) /\
      (r = Ok tt ->
       List.NoDup (map (fun item => Package.download_path host (fst item)) items) ->
         forall f u, In (f, u) items -> path_exists (fs s) (Package.download_path host f) = false ->
           In u urls /\
           exists body o o', urlopen u o = (Delivered body, o') /\
                             files (fs s') !! Package.download_path host f = Some body).
Proof.
  induction items as [|[f0 u0] items IH]; intros s s' r Hrun; simpl in Hrun.
  - injection Hrun as <- <-. split; [apply preserved_refl|].
    exists []. rewrite app_nil_r. repeat split; simpl; intros; try tauto.
    simpl in *; tauto.
  - destruct (path_exists (fs s) (Package.download_path host f0)) eqn:Hhead.
    + destruct (IH _ _ _ Hrun) as (Hpres & urls & Hreq & Honly & Hall & Hdl).
      split; [exact Hpres|]. exists urls. split; [exact Hreq|].
      split; [|split].
      * intros u Hu. destruct (Honly u Hu) as (f & Hin & Habs).
        exists f. split; [right; exact Hin | exact Habs].
      * intros Hok f u [[= <- <-]|Hin]; [|eauto].
        eapply preserved_exists; eauto.
      * intros Hok Hnd f u [[= <- <-]|Hin] Habs; [congruence|].
        inversion Hnd; subst. eauto.
    + destruct (urlopen u0 (outside s)) as [[e|body|partial e] outside1] eqn:Hopen.
      * injection Hrun as <- <-.
        split; [repeat split; auto|].
        exists [u0]. split; [reflexivity|]. split; [|split].
        -- intros u [<-|[]]. exists f0. split; [left; reflexivity | exact Hhead].
        -- discriminate.
        -- discriminate.
      * set (s1 := Package.stored host f0 body (asked u0 outside1 s)) in Hrun.
        assert (Hpres1 : preserved s s1) by (apply preserved_stored; exact Hhead).
        assert (Hfile : files (fs s1) !! Package.download_path host f0 = Some body)
          by apply lookup_insert_eq.
        destruct (IH _ _ _ Hrun) as (Hpres & urls & Hreq & Honly & Hall & Hdl).
        split; [eapply preserved_trans; eauto|].
        exists (u0 :: urls). split; [|split; [|split]].
        -- rewrite Hreq. subst s1. simpl. rewrite <- app_assoc. reflexivity.
        -- intros u [<-|Hu].
           ++ exists f0. split; [left; reflexivity | exact Hhead].
           ++ destruct (Honly u Hu) as (f & Hin & Habs).
              exists f. split; [right; exact Hin|].
              destruct (path_exists (fs s) (Package.download_path host f)) eqn:He; [|reflexivity].
              rewrite (preserved_exists _ _ _ Hpres1 He) in Habs. discriminate.
        -- intros Hok f u [[= <- <-]|Hin]; [|eauto].
           eapply preserved_exists; [exact Hpres|]. apply path_exists_write_eq.
        -- intros Hok Hnd f u [[= <- <-]|Hin] Habs.
           ++ split; [left; reflexivity|].
              exists body, (outside s), outside1. split; [exact Hopen|].
              destruct Hpres as (Hkeep & _). apply Hkeep. exact Hfile.
           ++ inversion Hnd as [|? ? Hnotin Hnd']; subst.
              assert (Hne : Package.download_path host f0 <> Package.download_path host f).
              { intros Heq. apply Hnotin. simpl. rewrite Heq.
                apply (in_map (fun item => Package.download_path host (fst item))) in Hin.
                exact Hin. }
              assert (Habs1 : path_exists (fs s1) (Package.download_path host f) = false).
              { subst s1. simpl. rewrite path_exists_write_ne by exact Hne.
                exact Habs. }
              destruct (Hdl eq_refl Hnd' f u Hin Habs1) as (Hu & Hbody).
              split; [right; exact Hu | exact Hbody].
      * injection Hrun as <- <-.
        split; [apply preserved_stored; exact Hhead|].
        exists [u0]. split; [reflexivity|]. split; [|split].
        -- intros u [<-|[]]. exists f0. split; [left; reflexivity | exact Hhead].
        -- discriminate.
        -- discriminate.
Qed.

(** The first entry whose file is missing is asked for, whatever comes
    after it. *)
Lemma fetch_items_first_missing (before : list (string * string)) :
  forall (f u : string) (rest : list (string * string)) (s s' : State) (r : result unit),
    (forall g v, In (g, v) before ->
                 path_exists (fs s) (Package.download_path host g) = true) ->
    path_exists (fs s) (Package.download_path host f) = false ->
    Package.fetch_items host (before ++ (f, u) :: rest) s = (r, s') ->
    exists more,
      requests s' = requests s ++ u :: more /\
      match fst (urlopen u (outside s)) with
      | Delivered body => files (fs s') !! Package.download_path host f = Some body
      | Failed e =>
          r = Raise e /\ more = [] /\
          path_exists (fs s') (Package.download_path host f) = false
      | Interrupted partial e =>
          r = Raise e /\ more = [] /\
          files (fs s') !! Package.download_path host f = Some partial
      end.
Proof.
  induction before as [|[g v] before IH]; intros f u rest s s' r Hthere Hmissing Hrun;
    simpl in Hrun.
  - rewrite Hmissing in Hrun.
    destruct (urlopen u (outside s)) as [[e|body|partial e] outside1] eqn:Hopen; simpl.
    + injection Hrun as <- <-. exists []. simpl. auto.
    + destruct (fetch_items_run _ _ _ _ Hrun) as ((Hkeep & _) & urls & Hreq & _).
      exists urls. split.
      * rewrite Hreq. simpl. rewrite <- app_assoc. reflexivity.
      * apply Hkeep. apply lookup_insert_eq.
    + injection Hrun as <- <-. exists []. simpl. repeat split. apply lookup_insert_eq.
  - rewrite (Hthere g v) in Hrun by (left; reflexivity).
    eapply IH; eauto. intros g' v' Hin. apply (Hthere g' v'). right. exact Hin.
Qed.

(** C8: [fetch_source_archives] goes through the entries as the contract
    [Fetches] says: an entry whose file is in the downloads directory is
    skipped, for any other the url is asked for and what it delivers is
    written to the file.  So: a file that is there keeps its content;
    the network is asked only for entries whose file was missing; the
    first entry whose file is missing is asked for in every run, and its
    file holds what was delivered; in a run that returns every file is
    there, and every missing file (of entries that name different files)
    holds what its url delivered; when no file is missing nothing happens;
    and a second run after a run that returned asks nothing and changes
    nothing. *)
Theorem fetch_source_archives_skips_existing_files
    (self : Package) (s s' : State) (r : result unit) :
  Package.fetch_source_archives host self s = (r, s') ->
  Fetches host (source_archives self) s r s' /\
  (forall k c, files (fs s) !! k = Some c -> files (fs s') !! k = Some c) /\
  (exists urls,
     requests s' = requests s ++ urls /\
     (forall u, In u urls ->
        exists f, In (f, u) (source_archives self) /\
                  path_exists (fs s) (Package.download_path host f) = false) /\
     (r = Ok tt ->
      List.NoDup (map (fun item => Package.download_path host (fst item))
                      (source_archives self)) ->
        forall f u, In (f, u) (source_archives self) ->
          path_exists (fs s) (Package.download_path host f) = false ->
          In u urls /\
          exists body o o', urlopen u o = (Delivered body, o') /\
                            files (fs s') !! Package.download_path host f = Some body)) /\
  (forall before f u rest,
     source_archives self = before ++ (f, u) :: rest ->
     (forall g v, In (g, v) before ->
                  path_exists (fs s) (Package.download_path host g) = true) ->
     path_exists (fs s) (Package.download_path host f) = false ->
     exists more,
       requests s' = requests s ++ u :: more /\
       match fst (urlopen u (outside s)) with
       | Delivered body => files (fs s') !! Package.download_path host f = Some body
       | Failed e =>
           r = Raise e /\ more = [] /\
           path_exists (fs s') (Package.download_path host f) = false
       | Interrupted partial e =>
           r = Raise e /\ more = [] /\
           files (fs s') !! Package.download_path host f = Some partial
       end) /\
  (r = Ok tt ->
   forall f u, In (f, u) (source_archives self) ->
               path_exists (fs s') (Package.download_path host f) = true) /\
  ((forall f u, In (f, u) (source_archives self) ->
                path_exists (fs s) (Package.download_path host f) = true) ->
   r = Ok tt /\ s' = s) /\
  (r = Ok tt ->
   Package.fetch_source_archives host self s' = (Ok tt, s') /\
   requests (snd (Package.fetch_source_archives host self s')) = requests s').
Proof.
  unfold Package.fetch_source_archives. intros Hrun.
  destruct (fetch_items_run _ _ _ _ Hrun)
    as ((Hkeep & _) & urls & Hreq & Honly & Hall & Hdl).
  split; [apply fetch_items_Fetches; exact Hrun|].
  split; [exact Hkeep|]. split; [|split; [|split; [exact Hall|split]]].
  - exists urls. auto.
  - intros before f u rest Heq Hthere Hmissing. rewrite Heq in Hrun.
    eapply fetch_items_first_missing; eauto.
  - intros Hpresent. rewrite (fetch_items_all_present _ _ Hpresent) in Hrun.
    injection Hrun as <- <-. auto.
  - intros Hok.
    rewrite (fetch_items_all_present _ s' (Hall Hok)). auto.
Qed.

End FetchFacts.

(** * The theorems at concrete inputs *)

Lemma output_base_name_developer_linux_witness :
  Package.output_base_name linux_host qwt (start []) =
    Ok "qwt-6.1.4-do-not-use-me-developer-version-linux".
Proof.
  apply (output_base_name_developer_linux linux_host qwt (start []));
    vm_compute; reflexivity.
Defined.

Lemma visual_studio_generator_for_build_cases_witness :
  CMakeMixin.visual_studio_generator_for_build
    (host_of "win32" [("BUILD_VS_VERSION", "2017")]) = Ok "Visual Studio 15 2017" /\
  CMakeMixin.visual_studio_generator_for_build (host_of "win32" []) =
    Ok "Visual Studio 16 2019" /\
  CMakeMixin.visual_studio_generator_for_build
    (host_of "win32" [("BUILD_VS_VERSION", "2019")]) = Ok "Visual Studio 16 2019" /\
  CMakeMixin.visual_studio_generator_for_build
    (host_of "win32" [("BUILD_VS_VERSION", "2016")]) =
    Raise (Exception "Invalid value for BUILD_VS_VERSION: 2016").
Proof.
  split; [|split; [|split]].
  - apply (proj1 (visual_studio_generator_for_build_cases
                    (host_of "win32" [("BUILD_VS_VERSION", "2017")]))).
    vm_compute; reflexivity.
  - apply (proj1 (proj2 (visual_studio_generator_for_build_cases (host_of "win32" [])))).
    vm_compute; reflexivity.
  - apply (proj1 (proj2 (proj2 (visual_studio_generator_for_build_cases
                    (host_of "win32" [("BUILD_VS_VERSION", "2019")]))))).
    vm_compute; reflexivity.
  - apply (proj2 (proj2 (proj2 (visual_studio_generator_for_build_cases
                    (host_of "win32" [("BUILD_VS_VERSION", "2016")])))) "2016").
    + vm_compute; reflexivity.
    + discriminate.
    + discriminate.
Defined.

Lemma platform_None_makes_output_base_name_raise_witness :
  Package.platform linux_host qwt_with_distribution (start []) = Ok None /\
  exists msg,
    Package.output_base_name linux_host qwt_with_distribution (start []) =
      Raise (TypeError msg).
Proof.
  apply (platform_None_makes_output_base_name_raise
           linux_host qwt_with_distribution (start []));
    vm_compute; reflexivity.
Defined.

Lemma install_directory_nests_for_single_components_witness :
  exists n d,
    name qwt = Some n /\
    PackagePaths.install_directory windows_host qwt (start []) = Ok d /\
    d = Pathlib.joinpath (Pathlib.joinpath (Package.toolbase windows_host) n)
                         "qwt-6.1.4-20200101.1-win32-vs2019" /\
    Package.output_archive_filename windows_host qwt (start []) =
      Ok ("qwt-6.1.4-20200101.1-win32-vs2019" +:+ ".tar.gz") /\
    (Pathlib.single_component (Package.host_flavour windows_host) n = true ->
     Pathlib.single_component (Package.host_flavour windows_host)
                              "qwt-6.1.4-20200101.1-win32-vs2019" = true ->
     parts d = parts (Package.toolbase windows_host) ++
               [n; "qwt-6.1.4-20200101.1-win32-vs2019"] /\
     anchor d = anchor (Package.toolbase windows_host) /\
     name_of d = "qwt-6.1.4-20200101.1-win32-vs2019" /\
     Package.install_directory windows_host qwt (start []) = Ok d).
Proof.
  apply (install_directory_nests_for_single_components windows_host qwt (start [])
           "qwt-6.1.4-20200101.1-win32-vs2019").
  vm_compute; reflexivity.
Defined.

(** The install directory on Windows, and that its two operands are
    single components. *)
Example install_directory_on_windows :
  Pathlib.single_component Windows "qwt" = true /\
  Pathlib.single_component Windows "qwt-6.1.4-20200101.1-win32-vs2019" = true /\
  match PackagePaths.install_directory windows_host qwt (start []) with
  | Ok d => str d
  | Raise _ => EmptyString
  end = "D:\x_mirror\buildman\tools\qwt\qwt-6.1.4-20200101.1-win32-vs2019".
Proof. vm_compute. repeat split; reflexivity. Qed.

(** C7 as stated fails on two inputs.  With BUILD_BUILDNUMBER set to a/b
    the base name holds a slash, the install directory has one component
    more, and its last component is b-linux, not the base name.  With a
    package named /srv both operands are absolute, each takes the place of
    the path before it, and the install directory is not in toolbase at
    all. *)
Lemma install_directory_last_component_counterexample :
  (Package.output_base_name slash_host qwt (start []) = Ok "qwt-6.1.4-a/b-linux" /\
   exists d,
     PackagePaths.install_directory slash_host qwt (start []) = Ok d /\
     parts d = ["opt"; "ccdc"; "third-party"; "qwt"; "qwt-6.1.4-a"; "b-linux"] /\
     name_of d <> "qwt-6.1.4-a/b-linux") /\
  (Package.output_base_name linux_host srv (start []) =
     Ok "/srv-1.0-do-not-use-me-developer-version-linux" /\
   exists d,
     PackagePaths.install_directory linux_host srv (start []) = Ok d /\
     anchor d = "/" /\
     parts d = ["srv-1.0-do-not-use-me-developer-version-linux"] /\
     parts (Package.toolbase linux_host) = ["opt"; "ccdc"; "third-party"]).
Proof.
  split; (split; [vm_compute; reflexivity|]); eexists;
    (split; [vm_compute; reflexivity|]); repeat split; discriminate.
Qed.

Lemma extract_archive_windows_tar_raises_TypeError_witness :
  Package.extract_archive windows_host qwt
    (Package.source_downloads_base windows_host // "foo.tar.gz")
    (Package.source_extracted_base windows_host // "qwt") (start []) =
  (Raise (TypeError list_plus_str), start []).
Proof.
  apply (extract_archive_windows_tar_raises_TypeError windows_host qwt
           (Package.source_downloads_base windows_host // "foo.tar.gz")
           (Package.source_extracted_base windows_host // "qwt") (start [])).
  - vm_compute; reflexivity.
  - vm_compute; reflexivity.
  - vm_compute; reflexivity.
  - right; left. vm_compute; reflexivity.
Defined.

Lemma extract_archive_7z_always_raises_witness :
  let path := Package.source_downloads_base linux_host // "qt-5.12.7-linux.7z" in
  let where_ := Package.toolbase linux_host // "qt" in
  let seven_zip := ["7z"; "x"; "-aoa"; "-o" +:+ str where_; str path] in
  let ran := Package.system linux_host qwt "extract_archive" seven_zip None None false
                            (start []) in
  Package.extract_archive linux_host qwt path where_ (start []) =
    (match fst ran with
     | Ok _ => Raise (AttributeError ("Can't extract " +:+ str path))
     | Raise e => Raise e
     end, snd ran) /\
  commands (snd ran) =
    commands (start []) ++ [{| argv := seven_zip; cwd := None; env := None |}] /\
  raises (fst (Package.extract_archive linux_host qwt path where_ (start []))).
Proof.
  apply (extract_archive_7z_always_raises linux_host qwt
           (Package.source_downloads_base linux_host // "qt-5.12.7-linux.7z")
           (Package.toolbase linux_host // "qt") (start []));
    vm_compute; reflexivity.
Defined.

(** On the failing input of C2 the archive is unpacked by 7z, which ends
    with status 0, and the call still raises the unsupported-format
    error. *)
Example extract_archive_7z_succeeds_then_raises :
  let path := Package.source_downloads_base linux_host // "qt-5.12.7-linux.7z" in
  let ran := Package.extract_archive linux_host qwt path
               (Package.toolbase linux_host // "qt") (start []) in
  fst ran =
    Raise (AttributeError
             "Can't extract /opt/ccdc/third-party-sources/downloads/qt-5.12.7-linux.7z") /\
  map argv (commands (snd ran)) =
    [["7z"; "x"; "-aoa"; "-o/opt/ccdc/third-party/qt";
      "/opt/ccdc/third-party-sources/downloads/qt-5.12.7-linux.7z"]].
Proof. vm_compute. split; reflexivity. Qed.

Lemma extract_archive_dispatch_witness :
  Package.extract_archive linux_host qwt
    (Package.source_downloads_base linux_host // "foo.tar.gz")
    (Package.source_extracted_base linux_host // "qwt") (start []) =
  Package.system linux_host qwt "extract_archive"
    ["tar"; "zxf"; str (Package.source_downloads_base linux_host // "foo.tar.gz")]
    (Some (Package.source_extracted_base linux_host // "qwt")) None false (start []).
Proof.
  pose proof (extract_archive_dispatch linux_host qwt
                (Package.source_downloads_base linux_host // "foo.tar.gz")
                (Package.source_extracted_base linux_host // "qwt") (start []))
    as (_ & Htar & _).
  simpl in Htar.
  destruct Htar as (_ & Hgz & _); [vm_compute; reflexivity ..|].
  apply Hgz; [vm_compute; reflexivity | left; vm_compute; reflexivity].
Defined.

(** C4 as stated fails on two inputs.  On Windows the archive foo.tar.gz
    is not handed to [tar zxf]: the call raises [TypeError] and runs no
    command.  On Linux the archive foo.bz2.gz, which has the suffix .gz, is
    handed to [tar jxf], because .bz2 is looked for first. *)
Lemma extract_archive_dispatch_counterexample :
  let where_ := Package.source_extracted_base windows_host // "qwt" in
  let path := Package.source_downloads_base windows_host // "foo.tar.gz" in
  (has_suffix ".gz" path = true /\
   Package.extract_archive windows_host qwt path where_ (start []) <>
     Package.system windows_host qwt "extract_archive" ["tar"; "zxf"; str path]
                    (Some where_) None false (start []) /\
   commands (snd (Package.extract_archive windows_host qwt path where_ (start []))) = []) /\
  let where_ := Package.source_extracted_base linux_host // "qwt" in
  let path := Package.source_downloads_base linux_host // "foo.bz2.gz" in
  (has_suffix ".gz" path = true /\
   Package.extract_archive linux_host qwt path where_ (start []) <>
     Package.system linux_host qwt "extract_archive" ["tar"; "zxf"; str path]
                    (Some where_) None false (start []) /\
   map argv (commands (snd (Package.extract_archive linux_host qwt path where_
                                                    (start [])))) =
     [["tar"; "jxf"; str path]]).
Proof.
  split; (split; [vm_compute; reflexivity|]); split.
  - intros Heq. apply (f_equal fst) in Heq. vm_compute in Heq. discriminate.
  - vm_compute; reflexivity.
  - intros Heq. apply (f_equal (fun x => map argv (commands (snd x)))) in Heq.
    vm_compute in Heq. discriminate.
  - vm_compute; reflexivity.
Qed.


(** The two runs of tar on Windows when the first one ends with status 2,
    and the single run on Linux, whose failure goes on to the caller. *)
Example create_archive_on_failure :
  (let ran := Package.create_archive windows_host qwt (start [2%Z]) in
   fst ran = Ok tt /\
   map argv (commands (snd ran)) =
     [["tar"; "-zcf"; "D:\tp\builds\qwt-6.1.4-20200101.1-win32-vs2019.tar.gz";
       "qwt-6.1.4-20200101.1-win32-vs2019"];
      ["tar"; "--force-local"; "-zcf";
       "D:\tp\builds\qwt-6.1.4-20200101.1-win32-vs2019.tar.gz";
       "qwt-6.1.4-20200101.1-win32-vs2019"]]) /\
  (let ran := Package.create_archive linux_host qwt (start [2%Z]) in
   let command :=
     ["tar"; "-zcf";
      "/opt/ccdc/third-party-sources/builds/qwt-6.1.4-do-not-use-me-developer-version-linux.tar.gz";
      "qwt-6.1.4-do-not-use-me-developer-version-linux"] in
   fst ran = Raise (CalledProcessError 2 command EmptyString) /\
   map argv (commands (snd ran)) = [command]).
Proof. vm_compute. repeat split; reflexivity. Qed.

(** A configuration script that ends with status 2 stops the build: the
    only command that ran is the script, make was never started. *)
Example build_stops_at_failing_configuration_script :
  let self := GnuMake_MakeInstall_pipeline linux_host qwt_with_qmake in
  let ran := build (observed self) ([], qmake_installed [2%Z]) in
  let command :=
    ["/opt/qt/bin/qmake";
     "--prefix=/opt/ccdc/third-party/qwt/qwt-6.1.4-do-not-use-me-developer-version-linux"] in
  fst ran = Raise (CalledProcessError 2 command EmptyString) /\
  fst (snd ran) =
    [Cleanup; FetchSourceArchives; ExtractSourceArchives; PatchSources;
     RunConfigurationScript] /\
  map argv (commands (snd (snd ran))) = [command].
Proof. vm_compute. repeat split; reflexivity. Qed.

(** The same build when every command ends with status 0. *)
Example build_runs_all_stages :
  let self := GnuMake_MakeInstall_pipeline linux_host qwt_with_qmake in
  let ran := build (observed self) ([], qmake_installed []) in
  fst ran = Ok tt /\
  fst (snd ran) = stages /\
  map (fun c => hd EmptyString (argv c)) (commands (snd (snd ran))) =
    ["/opt/qt/bin/qmake"; "make"; "make"; "tar"].
Proof. vm_compute. repeat split; reflexivity. Qed.

Lemma fetch_source_archives_skips_existing_files_witness :
  let target := Package.download_path linux_host in
  let s := first_archive_cached in
  let s' := both_archives_cached in
  Fetches linux_host (source_archives two_archives) s (Ok tt) s' /\
  (forall k c, files (fs s) !! k = Some c -> files (fs s') !! k = Some c) /\
  (exists urls,
     requests s' = requests s ++ urls /\
     (forall u, In u urls ->
        exists f, In (f, u) (source_archives two_archives) /\
                  path_exists (fs s) (target f) = false) /\
     (Ok tt = Ok tt ->
      List.NoDup (map (fun item => target (fst item)) (source_archives two_archives)) ->
        forall f u, In (f, u) (source_archives two_archives) ->
          path_exists (fs s) (target f) = false ->
          In u urls /\
          exists body o o', @urlopen scripted u o = (Delivered body, o') /\
                            files (fs s') !! target f = Some body)) /\
  (forall before f u rest,
     source_archives two_archives = before ++ (f, u) :: rest ->
     (forall g v, In (g, v) before -> path_exists (fs s) (target g) = true) ->
     path_exists (fs s) (target f) = false ->
     exists more,
       requests s' = requests s ++ u :: more /\
       match fst (@urlopen scripted u (outside s)) with
       | Delivered body => files (fs s') !! target f = Some body
       | Failed e =>
           Ok tt = Raise e /\ more = [] /\ path_exists (fs s') (target f) = false
       | Interrupted partial e =>
           Ok tt = Raise e /\ more = [] /\ files (fs s') !! target f = Some partial
       end) /\
  (Ok tt = Ok tt ->
   forall f u, In (f, u) (source_archives two_archives) ->
               path_exists (fs s') (target f) = true) /\
  ((forall f u, In (f, u) (source_archives two_archives) ->
                path_exists (fs s) (target f) = true) ->
   Ok tt = Ok tt /\ s' = s) /\
  (Ok tt = Ok tt ->
   Package.fetch_source_archives linux_host two_archives s' = (Ok tt, s') /\
   requests (snd (Package.fetch_source_archives linux_host two_archives s')) =
     requests s').
Proof.
  apply (fetch_source_archives_skips_existing_files linux_host two_archives
           first_archive_cached both_archives_cached (Ok tt)).
  vm_compute; reflexivity.
Defined.

(** When the connection drops, the first archive is asked for, two bytes
    of it are left in its file, the run raises, and the second archive is
    never asked for; the next run takes the two bytes for the archive. *)
Example fetch_source_archives_interrupted :
  let first := Package.fetch_source_archives linux_host two_archives dropping_start in
  let second := Package.fetch_source_archives linux_host two_archives (snd first) in
  fst first = Raise (ConnectionResetError "Connection reset by peer") /\
  requests (snd first) = ["https://example.org/qwt-6.1.4.zip"] /\
  files (fs (snd first)) !! "/opt/ccdc/third-party-sources/downloads/qwt-6.1.4.zip" =
    Some "PK" /\
  requests (snd second) =
    ["https://example.org/qwt-6.1.4.zip"; "https://example.org/qt-5.12.tar.xz"].
Proof. vm_compute. repeat split; reflexivity. Qed.

(** The first run asks for the one archive that is missing; the second
    run asks for nothing. *)
Example fetch_source_archives_twice :
  let first := Package.fetch_source_archives linux_host two_archives
                 first_archive_cached in
  let second := Package.fetch_source_archives linux_host two_archives (snd first) in
  fst first = Ok tt /\
  requests (snd first) = ["https://example.org/qt-5.12.tar.xz"] /\
  files (fs (snd first)) !! "/opt/ccdc/third-party-sources/downloads/qwt-6.1.4.zip" =
    Some "PK" /\
  second = first.
Proof. vm_compute. repeat split; reflexivity. Qed.

(** * Further properties of the module *)

(** ** Text *)

Lemma length_append (a b : string) :
  String.length (a +:+ b) = String.length a + String.length b.
Proof. induction a as [|c a IH]; simpl; [reflexivity | rewrite IH; reflexivity]. Qed.

Lemma append_inj_r (a b c : string) : a +:+ c = b +:+ c -> a = b.
Proof.
  revert b. induction a as [|x a IH]; intros [|y b] Heq; simpl in Heq.
  - reflexivity.
  - apply (f_equal String.length) in Heq.
    rewrite (length_append EmptyString c), (length_append (String y b) c) in Heq.
    simpl in Heq. exfalso. lia.
  - apply (f_equal String.length) in Heq.
    rewrite (length_append EmptyString c), (length_append (String x a) c) in Heq.
    simpl in Heq. exfalso. lia.
  - injection Heq as <- Heq. f_equal. apply IH. exact Heq.
Qed.

Lemma append_nil_r (a : string) : a +:+ EmptyString = a.
Proof.
  induction a as [|c a IH]; [reflexivity | exact (f_equal (String c) IH)].
Qed.

Lemma append_assoc (a b c : string) : (a +:+ b) +:+ c = a +:+ (b +:+ c).
Proof.
  induction a as [|x a IH]; [reflexivity | exact (f_equal (String x) IH)].
Qed.

Lemma prefix_true_inv (old s : string) :
  String.prefix old s = true -> exists t, s = old +:+ t.
Proof.
  revert s. induction old as [|c old IH]; intros s Hp.
  - exists s. reflexivity.
  - destruct s as [|d s]; simpl in Hp; [discriminate|].
    destruct (Ascii.ascii_dec c d) as [<-|Hne]; [|discriminate].
    destruct (IH _ Hp) as [t ->]. exists t. reflexivity.
Qed.

Lemma prefix_append (old t : string) : String.prefix old (old +:+ t) = true.
Proof.
  induction old as [|c old IH]; [destruct t; reflexivity|].
  change (String c old +:+ t) with (String c (old +:+ t)). simpl.
  destruct (Ascii.ascii_dec c c); [exact IH | contradiction].
Qed.

(** ** The platform and the base name *)

Section NamingFacts.
Context `{External}.
Variable host : Host.

(** X1: [platform] is [sys.platform] when the distribution is not asked for
    or the host is not Linux, and it is [None] in one situation only: the
    distribution is asked for on a Linux host that is neither CentOS nor
    Ubuntu. *)
Theorem platform_is_None_only_on_unrecognised_linux (self : Package) (s : State) :
  (use_distribution_in_base_name self = false \/ Package.linux host = false ->
   Package.platform host self s = Ok (Some (sys_platform host))) /\
  (Package.platform host self s = Ok None <->
   use_distribution_in_base_name self = true /\ Package.linux host = true /\
   Package.centos host s = false /\ Package.ubuntu host s = Ok false).
Proof.
  unfold Package.platform. split.
  - intros [-> | Hl]; [reflexivity|].
    rewrite Hl. destruct (use_distribution_in_base_name self); reflexivity.
  - destruct (use_distribution_in_base_name self); simpl;
      [|split; [discriminate | intros (? & _); discriminate]].
    destruct (Package.linux host); simpl;
      [|split; [discriminate | intros (_ & ? & _); discriminate]].
    destruct (Package.centos host s).
    + split; [|intros (_ & _ & ? & _); discriminate].
      destruct (Package.centos_major_version s); discriminate.
    + destruct (Package.ubuntu host s) as [[|]|e]; simpl.
      * split; [|intros (_ & _ & _ & ?); discriminate].
        destruct (Package.ubuntu_version s); discriminate.
      * tauto.
      * split; [discriminate | intros (_ & _ & _ & ?); discriminate].
Qed.

(** X2: [output_base_name] returns exactly when the name, the version and
    the platform are strings, and the name it returns is
    name-version-build-platform, where build is BUILD_BUILDNUMBER or the
    developer placeholder, followed by -vs<BUILD_VS_VERSION> when the
    package uses the toolset and the variable is set. *)
Theorem output_base_name_format (self : Package) (s : State) (b : string) :
  Package.output_base_name host self s = Ok b <->
  exists n v p,
    name self = Some n /\ version self = Some v /\
    Package.platform host self s = Ok (Some p) /\
    b = join "-"
          ([n; v;
            default "do-not-use-me-developer-version"
                    (environ host !! "BUILD_BUILDNUMBER");
            p] ++
           match use_vs_version_in_base_name self,
                 environ host !! "BUILD_VS_VERSION" with
           | true, Some toolset => ["vs" +:+ toolset]
           | _, _ => []
           end).
Proof.
  unfold Package.output_base_name. split.
  - destruct (Package.platform host self s) as [p|e]; simpl; [|discriminate].
    intros Hj. apply str_join_Ok_inv in Hj as [Hall ->].
    assert (Hn : exists n, name self = Some n).
    { apply Hall.
      destruct (environ host !! "BUILD_BUILDNUMBER"),
               (use_vs_version_in_base_name self),
               (environ host !! "BUILD_VS_VERSION"); simpl; tauto. }
    assert (Hv : exists v, version self = Some v).
    { apply Hall.
      destruct (environ host !! "BUILD_BUILDNUMBER"),
               (use_vs_version_in_base_name self),
               (environ host !! "BUILD_VS_VERSION"); simpl; tauto. }
    assert (Hp : exists x, p = Some x).
    { apply Hall.
      destruct (environ host !! "BUILD_BUILDNUMBER"),
               (use_vs_version_in_base_name self),
               (environ host !! "BUILD_VS_VERSION"); simpl; tauto. }
    destruct Hn as [n Hn], Hv as [v Hv], Hp as [x ->].
    exists n, v, x. rewrite Hn, Hv. repeat split.
    destruct (environ host !! "BUILD_BUILDNUMBER"),
             (use_vs_version_in_base_name self),
             (environ host !! "BUILD_VS_VERSION"); reflexivity.
  - intros (n & v & p & -> & -> & -> & ->). simpl.
    destruct (environ host !! "BUILD_BUILDNUMBER"),
             (use_vs_version_in_base_name self),
             (environ host !! "BUILD_VS_VERSION"); reflexivity.
Qed.

(** X10: when [output_base_name] raises, [create_archive] raises the same
    exception before any command is run: the state is the one before the
    call. *)
Theorem create_archive_raises_before_running (self : Package) (s : State) (e : exn) :
  Package.output_base_name host self s = Raise e ->
  Package.create_archive host self s = (Raise e, s).
Proof.
  intros He. unfold Package.create_archive, bind, read.
  unfold Package.output_archive_filename. rewrite He. reflexivity.
Qed.

End NamingFacts.

(** X3: two hosts that differ in BUILD_BUILDNUMBER only (same platform
    result, same BUILD_VS_VERSION) give the same package two different
    base names. *)
Theorem output_base_name_tells_build_numbers_apart `{External}
    (host1 host2 : Host) (self : Package) (s : State) (n1 n2 b1 b2 : string) :
  Package.platform host1 self s = Package.platform host2 self s ->
  environ host1 !! "BUILD_VS_VERSION" = environ host2 !! "BUILD_VS_VERSION" ->
  environ host1 !! "BUILD_BUILDNUMBER" = Some n1 ->
  environ host2 !! "BUILD_BUILDNUMBER" = Some n2 ->
  Package.output_base_name host1 self s = Ok b1 ->
  Package.output_base_name host2 self s = Ok b2 ->
  n1 <> n2 ->
  b1 <> b2.
Proof.
  intros Hp Hvs Hn1 Hn2 Hb1 Hb2 Hne Heq. apply Hne. subst b2.
  unfold Package.output_base_name in Hb1, Hb2.
  rewrite <- Hp, <- Hvs, Hn2 in Hb2. rewrite Hn1 in Hb1.
  destruct (Package.platform host1 self s) as [p|e]; simpl in *; [|discriminate].
  apply str_join_Ok_inv in Hb1 as [Hall1 ->].
  apply str_join_Ok_inv in Hb2 as [_ Heq].
  assert (Hn : exists n, name self = Some n).
  { apply Hall1. destruct (use_vs_version_in_base_name self),
                          (environ host1 !! "BUILD_VS_VERSION"); simpl; tauto. }
  assert (Hv : exists v, version self = Some v).
  { apply Hall1. destruct (use_vs_version_in_base_name self),
                          (environ host1 !! "BUILD_VS_VERSION"); simpl; tauto. }
  assert (Hx : exists x, p = Some x).
  { apply Hall1. destruct (use_vs_version_in_base_name self),
                          (environ host1 !! "BUILD_VS_VERSION"); simpl; tauto. }
  destruct Hn as [n Hn], Hv as [v Hv], Hx as [x ->]. rewrite Hn, Hv in Heq.
  destruct (use_vs_version_in_base_name self),
           (environ host1 !! "BUILD_VS_VERSION"); simpl in Heq;
    do 4 apply append_inj_l in Heq; apply append_inj_r in Heq; exact Heq.
Qed.

(** ** Commands, their environment and their log *)

Lemma lookup_filter_key (P : string -> bool) (m : gmap string string) (k : string) :
  filter (fun kv : string * string => P kv.1 = false) m !! k =
    if P k then None else m !! k.
Proof.
  rewrite map_lookup_filter. destruct (m !! k) as [c|]; simpl.
  - destruct (P k) eqn:HP; case_guard; simpl in *; congruence.
  - destruct (P k); reflexivity.
Qed.

Section CommandFacts.
Context `{External}.
Variable host : Host.

(** X7: on a host that is not macOS the environment of the configuration
    script is [os.environ] with CFLAGS and CXXFLAGS set to -O2, whatever
    they were, and nothing else changed (LDFLAGS is not set: its list of
    flags is empty); computing it asks nothing of the host. *)
Theorem environment_for_configuration_script_off_macos (s : State) :
  Package.macos host = false ->
  Package.environment_for_configuration_script host s =
    (Ok (<["CXXFLAGS" := "-O2"]> (<["CFLAGS" := "-O2"]> (environ host))), s).
Proof.
  intros Hm.
  unfold Package.environment_for_configuration_script, Package.export_flags,
    Package.cflags, Package.cxxflags, Package.ldflags.
  rewrite Hm. reflexivity.
Qed.

(** X8: on macOS the SDK root is asked of xcrun once.  A call that returns
    a root that is not empty has stored it, and from any state that holds
    it every later call returns it without asking; when nothing usable was
    stored before, the root is what xcrun printed without its last
    character. *)
Theorem macos_sdkroot_is_cached (s s' : State) (r : string) :
  Package.macos host = true ->
  Package.macos_sdkroot host s = (Ok (Some r), s') ->
  truthy (Some r) = true ->
  cached_sdkroot s' = Some r /\
  (truthy (cached_sdkroot s) = false ->
   exists out, check_output "xcrun --show-sdk-path" (fs s) (outside s) = Ok out /\
               r = drop_last out) /\
  (forall t : State, cached_sdkroot t = Some r ->
                     Package.macos_sdkroot host t = (Ok (Some r), t)).
Proof.
  intros Hm Hrun Hr.
  assert (Hlater : forall t : State, cached_sdkroot t = Some r ->
                     Package.macos_sdkroot host t = (Ok (Some r), t)).
  { intros t Ht. unfold Package.macos_sdkroot, bind. rewrite Hm. simpl.
    rewrite Ht, Hr. simpl. rewrite Ht. reflexivity. }
  unfold Package.macos_sdkroot, bind in Hrun. rewrite Hm in Hrun. simpl in Hrun.
  destruct (truthy (cached_sdkroot s)) eqn:Hc.
  - injection Hrun as Hrun <-. split; [exact Hrun|]. split; [discriminate | exact Hlater].
  - destruct (check_output "xcrun --show-sdk-path" (fs s) (outside s)) as [out|e] eqn:Hq;
      [|discriminate].
    simpl in Hrun. injection Hrun as Hrun <-. simpl. subst r.
    split; [reflexivity|]. split; [eauto | exact Hlater].
Qed.

(** X6: [run_configuration_script] with a script that does not exist raises
    [FileNotFoundError] and runs nothing.  With a script that exists, on a
    host that is not macOS, it makes the script executable and then reads
    the install directory: when that raises, the exception goes on and
    nothing is run; otherwise it makes the build directory and runs exactly
    the script with the one argument --prefix=<install directory>, in the
    build directory, with the environment of X7. *)
Theorem run_configuration_script_runs_the_script
    (self : Package) (s : State) (script : string) :
  configuration_script self = Some script ->
  truthy (Some script) = true ->
  (path_exists (fs s) script = false ->
   Package.run_configuration_script host self s = (Raise (FileNotFoundError script), s)) /\
  (path_exists (fs s) script = true ->
   Package.macos host = false ->
   let marked :=
     with_fs {| files := files (fs s); dirs := dirs (fs s);
                executable := executable (fs s) ∪ {[ script ]} |} s in
   match Package.install_directory host self marked with
   | Raise e => Package.run_configuration_script host self s = (Raise e, marked)
   | Ok d =>
       exists n,
         name self = Some n /\
         let builds := Package.source_builds_base host // n in
         Package.run_configuration_script host self s =
           Package.system host self "run_configuration_script"
             [script; "--prefix=" +:+ str d]
             (Some builds)
             (Some (<["CXXFLAGS" := "-O2"]> (<["CFLAGS" := "-O2"]> (environ host))))
             false
             (with_fs {| files := files (fs s);
                         dirs := dirs (fs s) ∪ list_to_set (ancestors builds);
                         executable := executable (fs s) ∪ {[ script ]} |} s)
   end).
Proof.
  intros Hscript Htrue. split.
  - intros Habsent. unfold Package.run_configuration_script.
    rewrite Hscript, Htrue. simpl.
    unfold bind, make_executable. rewrite Habsent. reflexivity.
  - intros Hthere Hm marked.
    assert (Hrun : Package.run_configuration_script host self s =
              match Package.install_directory host self marked with
              | Raise e => (Raise e, marked)
              | Ok d =>
                  (let! environment := Package.environment_for_configuration_script host in
                   let! where_ := Package.build_directory_path host self in
                   Package.system host self "run_configuration_script"
                     ([script] ++ ["--prefix=" +:+ str d])
                     (Some where_) (Some environment) false) marked
              end).
    { unfold Package.run_configuration_script. rewrite Hscript, Htrue. simpl.
      unfold bind at 1. unfold make_executable. rewrite Hthere. fold marked.
      unfold bind at 1. unfold Package.arguments_to_configuration_script, bind at 1, read.
      destruct (Package.install_directory host self marked); reflexivity. }
    rewrite Hrun. clear Hrun.
    destruct (Package.install_directory host self marked) as [d|e] eqn:Hd; [|reflexivity].
    assert (Hn : exists n, name self = Some n).
    { unfold Package.install_directory in Hd.
      destruct (name self) as [n|]; [eauto | discriminate]. }
    destruct Hn as [n Hn]. exists n. split; [exact Hn|].
    unfold bind at 1.
    rewrite environment_for_configuration_script_off_macos by exact Hm.
    unfold bind at 1. unfold Package.build_directory_path, bind, lift, mkdir, ret.
    rewrite Hn. simpl. reflexivity.
Qed.

(** X9: the make mixins.  On a host that is not macOS, for a package with
    a name, [run_build_command] makes the build directory and runs
    make -j<number of CPUs> in it, and [run_install_command] runs
    make install there, both with the environment of X7. *)
Theorem make_mixins_run_make_in_the_build_directory
    (self : Package) (s : State) (n : string) :
  Package.macos host = false ->
  name self = Some n ->
  let builds := Package.source_builds_base host // n in
  let environment := <["CXXFLAGS" := "-O2"]> (<["CFLAGS" := "-O2"]> (environ host)) in
  let made :=
    with_fs {| files := files (fs s);
               dirs := dirs (fs s) ∪ list_to_set (ancestors builds);
               executable := executable (fs s) |} s in
  GnuMakeMixin.run_build_command host self s =
    Package.system host self "run_build_command"
      ["make"; "-j" +:+ decimal (cpu_count host)] (Some builds) (Some environment)
      false made /\
  MakeInstallMixin.run_install_command host self s =
    Package.system host self "run_install_command"
      ["make"; "install"] (Some builds) (Some environment) false made.
Proof.
  intros Hm Hn builds environment made.
  unfold GnuMakeMixin.run_build_command, MakeInstallMixin.run_install_command,
    Package.environment_for_build_command.
  unfold bind at 1 3.
  rewrite environment_for_configuration_script_off_macos by exact Hm.
  unfold Package.build_directory_path, bind, lift, mkdir, ret.
  rewrite Hn. simpl. split; reflexivity.
Qed.

(** X5: a package without a name cannot be built.  [cleanup] joins the
    name to a directory before it removes anything; for the name [None]
    that raises [TypeError], which the [try] blocks of [cleanup] do not
    catch since they only accept [OSError].  So [cleanup] raises and
    leaves the state as it was, and [build], whose first stage it is,
    raises the same exception in the same state, with or without the make
    mixins. *)
Theorem cleanup_of_a_nameless_package_raises (self : Package) (s : State) :
  name self = None ->
  exists msg,
    Package.cleanup host self s = (Raise (TypeError msg), s) /\
    build (Package_pipeline host self) s = (Raise (TypeError msg), s) /\
    build (GnuMake_MakeInstall_pipeline host self) s = (Raise (TypeError msg), s).
Proof.
  intros Hn.
  assert (Hc : exists msg, Package.cleanup host self s = (Raise (TypeError msg), s)).
  { unfold Package.cleanup, Package.source_extracted, bind, lift, try_except.
    rewrite Hn. simpl. eauto. }
  destruct Hc as [msg Hc]. exists msg. split; [exact Hc|].
  split; unfold build; unfold bind at 1; simpl; rewrite Hc; reflexivity.
Qed.

End CommandFacts.

(** ** More on fetching *)

Section MoreFetchFacts.
Context `{External}.
Variable host : Host.

Lemma fetch_items_failure (items : list (string * string)) :
  forall (s s' : State) (e : exn),
    Package.fetch_items host items s = (Raise e, s') ->
    exists f u o o',
      In (f, u) items /\ last (requests s') = Some u /\
      ((urlopen u o = (Failed e, o') /\
        path_exists (fs s') (Package.download_path host f) = false) \/
       (exists partial,
          urlopen u o = (Interrupted partial e, o') /\
          files (fs s') !! Package.download_path host f = Some partial /\
          path_exists (fs s') (Package.download_path host f) = true)).
Proof.
  induction items as [|[f0 u0] items IH]; intros s s' e Hrun; simpl in Hrun.
  - discriminate.
  - destruct (path_exists (fs s) (Package.download_path host f0)) eqn:Hhead.
    + destruct (IH _ _ _ Hrun) as (f & u & o & o' & Hin & Hrest).
      exists f, u, o, o'. split; [right; exact Hin | exact Hrest].
    + destruct (urlopen u0 (outside s)) as [[e0|body|partial e0] outside1] eqn:Hopen.
      * injection Hrun as <- <-. exists f0, u0, (outside s), outside1. simpl.
        split; [left; reflexivity|]. split; [apply last_snoc|]. left. auto.
      * destruct (IH _ _ _ Hrun) as (f & u & o & o' & Hin & Hrest).
        exists f, u, o, o'. split; [right; exact Hin | exact Hrest].
      * injection Hrun as <- <-. exists f0, u0, (outside s), outside1. simpl.
        split; [left; reflexivity|]. split; [apply last_snoc|]. right.
        exists partial. split; [exact Hopen|].
        split; [apply lookup_insert_eq | apply path_exists_write_eq].
Qed.

(** X11: when [fetch_source_archives] raises, the exception is the one the
    download of the last url that was asked for ended with, and the
    entries after that one were not tried.  Either the download failed
    before the copy started, and then the file of the entry does not
    exist; or the response broke off while it was copied, and then the
    file exists and holds what had arrived, so that a later run will take
    it for the archive and skip the entry. *)
Theorem fetch_source_archives_stops_at_failed_download
    (self : Package) (s s' : State) (e : exn) :
  Package.fetch_source_archives host self s = (Raise e, s') ->
  exists f u o o',
    In (f, u) (source_archives self) /\
    last (requests s') = Some u /\
    ((urlopen u o = (Failed e, o') /\
      path_exists (fs s') (Package.download_path host f) = false) \/
     (exists partial,
        urlopen u o = (Interrupted partial e, o') /\
        files (fs s') !! Package.download_path host f = Some partial /\
        path_exists (fs s') (Package.download_path host f) = true)).
Proof. unfold Package.fetch_source_archives. apply fetch_items_failure. Qed.

Lemma fetch_items_elsewhere (items : list (string * string)) :
  forall (s s' : State) (r : result unit),
    Package.fetch_items host items s = (r, s') ->
    commands s' = commands s /\ dirs (fs s') = dirs (fs s) /\
    executable (fs s') = executable (fs s) /\
    cached_sdkroot s' = cached_sdkroot s /\
    forall k, (forall f u, In (f, u) items -> k <> Package.download_path host f) ->
              files (fs s') !! k = files (fs s) !! k.
Proof.
  induction items as [|[f0 u0] items IH]; intros s s' r Hrun; simpl in Hrun.
  - injection Hrun as <- <-. auto.
  - destruct (path_exists (fs s) (Package.download_path host f0)) eqn:Hhead.
    + destruct (IH _ _ _ Hrun) as (Hc & Hd & Hx & Hk & Hf).
      repeat split; try assumption.
      intros k Hne. apply Hf. intros f u Hin. apply (Hne f u). right. exact Hin.
    + destruct (urlopen u0 (outside s)) as [[e0|body|partial e0] outside1] eqn:Hopen.
      * injection Hrun as <- <-. auto.
      * destruct (IH _ _ _ Hrun) as (Hc & Hd & Hx & Hk & Hf).
        repeat split; try assumption.
        intros k Hne. rewrite Hf.
        -- simpl. apply lookup_insert_ne. intros Heq.
           apply (Hne f0 u0); [left; reflexivity | congruence].
        -- intros f u Hin. apply (Hne f u). right. exact Hin.
      * injection Hrun as <- <-. repeat split.
        intros k Hne. simpl. apply lookup_insert_ne. intros Heq.
        apply (Hne f0 u0); [left; reflexivity | congruence].
Qed.

(** X12: whether it returns or raises, [fetch_source_archives] runs no
    command, makes or removes no directory, and leaves every file that is
    not the download path of one of its entries as it was. *)
Theorem fetch_source_archives_touches_only_its_downloads
    (self : Package) (s s' : State) (r : result unit) :
  Package.fetch_source_archives host self s = (r, s') ->
  commands s' = commands s /\ dirs (fs s') = dirs (fs s) /\
  executable (fs s') = executable (fs s) /\
  forall k, (forall f u, In (f, u) (source_archives self) ->
                         k <> Package.download_path host f) ->
            files (fs s') !! k = files (fs s) !! k.
Proof.
  unfold Package.fetch_source_archives. intros Hrun.
  destruct (fetch_items_elsewhere _ _ _ _ Hrun) as (Hc & Hd & Hx & _ & Hf). auto.
Qed.

End MoreFetchFacts.

(** ** Patching a file *)

Lemma replace_from_absent (old new s : string) :
  ~ occurs old s -> replace_from old new 0 s = s.
Proof.
  induction s as [|c s IH]; intros Hno; [reflexivity|].
  cbn [replace_from]. destruct (String.prefix old (String c s)) eqn:Hp.
  - exfalso. apply Hno. apply prefix_true_inv in Hp as [t Ht].
    exists EmptyString, t. exact Ht.
  - f_equal. apply IH. intros (a & b & ->). apply Hno.
    exists (String c a), b. reflexivity.
Qed.

Lemma substitute_absent (subs : list (string * string)) (txt : string) :
  Forall (fun sub => fst sub <> EmptyString /\ ~ occurs (fst sub) txt) subs ->
  substitute subs txt = txt.
Proof.
  induction 1 as [|[old new] subs [Hne Hno] _ IH]; simpl in *; [reflexivity|].
  assert (Hsame : replace old new txt = txt).
  { destruct old as [|c old]; [contradiction|]. apply replace_from_absent. exact Hno. }
  rewrite Hsame. exact IH.
Qed.

Lemma universal_newlines_without_cr (txt : string) :
  has_char cr txt = false -> universal_newlines txt = txt.
Proof.
  induction txt as [|c txt IH]; [reflexivity|].
  intros Hno. cbn [has_char] in Hno. apply orb_false_elim in Hno as [Hc Hrest].
  cbn [universal_newlines]. rewrite Hc. f_equal. exact (IH Hrest).
Qed.

Lemma to_linesep_elsewhere (txt : string) : to_linesep false txt = txt.
Proof.
  induction txt as [|c txt IH]; [reflexivity|].
  cbn [to_linesep andb]. f_equal. exact IH.
Qed.

Section PatchFacts.
Context `{External}.
Variable host : Host.

(** X15: [patch] of a file that does not exist raises [FileNotFoundError]
    and changes nothing.  Otherwise it returns; the file is read and
    written in text mode, so it holds the text that was read, line ends
    turned into line feeds, with every substitution applied in turn and
    every line feed turned into the line end of the platform; no other
    file is touched and no command is run.  The state is as before exactly
    when what is written is what was stored, which is so when none of the
    patterns, which are not empty, stands in the text, the platform is not
    Windows and the file holds no carriage return. *)
Theorem patch_rewrites_one_file
    (fname : string) (subs : list (string * string)) (s : State) :
  (files (fs s) !! fname = None ->
   patch host fname subs s = (Raise (FileNotFoundError fname), s)) /\
  (forall stored, files (fs s) !! fname = Some stored ->
     let txt := universal_newlines stored in
     let written := to_linesep (Package.windows host) (substitute subs txt) in
     exists s',
       patch host fname subs s = (Ok tt, s') /\
       files (fs s') !! fname = Some written /\
       (forall k, k <> fname -> files (fs s') !! k = files (fs s) !! k) /\
       dirs (fs s') = dirs (fs s) /\ commands s' = commands s /\
       requests s' = requests s /\
       (s' = s <-> written = stored) /\
       (Forall (fun sub => fst sub <> EmptyString /\ ~ occurs (fst sub) txt) subs ->
        written = to_linesep (Package.windows host) txt /\
        (Package.windows host = false -> has_char cr stored = false -> s' = s))).
Proof.
  split.
  - unfold patch, bind, read_file, write_text. intros ->. reflexivity.
  - intros stored Hstored txt written.
    unfold patch, bind, read_file, write_text. rewrite Hstored. fold txt. fold written.
    eexists. split; [reflexivity|]. simpl.
    assert (Hsame : written = stored ->
              with_fs (write_file fname written (fs s)) s = s).
    { intros ->. unfold with_fs, write_file. rewrite (insert_id _ _ _ Hstored).
      destruct s as [[fl d x] o c rq k]. reflexivity. }
    split; [apply lookup_insert_eq|].
    split; [intros k Hk; apply lookup_insert_ne; congruence|].
    split; [reflexivity|]. split; [reflexivity|]. split; [reflexivity|].
    split; [split|].
    + intros Heq. apply (f_equal (fun st => files (fs st) !! fname)) in Heq.
      simpl in Heq. rewrite lookup_insert_eq, Hstored in Heq. congruence.
    + exact Hsame.
    + intros Hno.
      assert (Hw : written = to_linesep (Package.windows host) txt).
      { subst written. rewrite (substitute_absent _ _ Hno). reflexivity. }
      split; [exact Hw|]. intros Hwin Hcr. apply Hsame. rewrite Hw, Hwin.
      rewrite to_linesep_elsewhere. subst txt. apply universal_newlines_without_cr.
      exact Hcr.
Qed.

End PatchFacts.

(** ** The network *)

Section QuietFacts.
Context `{External}.

Lemma keeps_requests_ret {A : Type} (a : A) : keeps_requests (ret a).
Proof. intros s. reflexivity. Qed.

Lemma keeps_requests_raise {A : Type} (e : exn) : keeps_requests (raise (A := A) e).
Proof. intros s. reflexivity. Qed.

Lemma keeps_requests_lift {A : Type} (r : result A) : keeps_requests (lift r).
Proof. intros s. reflexivity. Qed.

Lemma keeps_requests_read {A : Type} (f : State -> result A) : keeps_requests (read f).
Proof. intros s. reflexivity. Qed.

Lemma keeps_requests_bind {A B : Type} (c : M State A) (k : A -> M State B) :
  keeps_requests c -> (forall a, keeps_requests (k a)) -> keeps_requests (bind c k).
Proof.
  intros Hc Hk s. unfold bind. specialize (Hc s).
  destruct (c s) as [[a|e] s1]; simpl in *; [|exact Hc].
  rewrite Hk. exact Hc.
Qed.

Lemma keeps_requests_try_except {A : Type} (c : M State A)
    (handler : exn -> option (M State A)) :
  keeps_requests c ->
  (forall e h, handler e = Some h -> keeps_requests h) ->
  keeps_requests (try_except c handler).
Proof.
  intros Hc Hh s. unfold try_except. specialize (Hc s).
  destruct (c s) as [[a|e] s1]; simpl in *; [exact Hc|].
  destruct (handler e) as [h|] eqn:He; [|exact Hc].
  rewrite (Hh e h He). exact Hc.
Qed.

Lemma keeps_requests_mkdir (p : Path) : keeps_requests (mkdir p).
Proof. intros s. reflexivity. Qed.

Lemma keeps_requests_rmtree (p : Path) : keeps_requests (rmtree p).
Proof. intros s. reflexivity. Qed.

Lemma keeps_requests_rmtree_strict (p : Path) : keeps_requests (rmtree_strict p).
Proof. intros s. unfold rmtree_strict. destruct (bool_decide _); reflexivity. Qed.

Lemma keeps_requests_make_executable (p : string) : keeps_requests (make_executable p).
Proof. intros s. unfold make_executable. destruct (path_exists _ _); reflexivity. Qed.

Lemma keeps_requests_read_file (p : string) : keeps_requests (read_file p).
Proof. intros s. unfold read_file. destruct (files _ !! _); reflexivity. Qed.

Lemma keeps_requests_write_text (host : Host) (p text : string) :
  keeps_requests (write_text host p text).
Proof. intros s. reflexivity. Qed.

Lemma keeps_requests_system (host : Host) (self : Package) (task : string)
    (command : list string) (where_ : option Path)
    (environment : option (gmap string string)) (append_log : bool) :
  keeps_requests (Package.system host self task command where_ environment append_log).
Proof.
  intros s.
  destruct (system_runs_once host self task command where_ environment append_log s)
    as (rc & output & s1 & Hrun & _ & Hr & _).
  rewrite Hrun. exact Hr.
Qed.

Lemma keeps_requests_macos_sdkroot (host : Host) :
  keeps_requests (Package.macos_sdkroot host).
Proof.
  unfold Package.macos_sdkroot. destruct (negb (Package.macos host)).
  - apply keeps_requests_ret.
  - apply keeps_requests_bind.
    + intros s. destruct (truthy (cached_sdkroot s)); [reflexivity|].
      destruct (check_output _ _ _); reflexivity.
    + intros _ s. reflexivity.
Qed.

End QuietFacts.

(** Takes a method apart down to the operations above. *)
Ltac quiet :=
  repeat first
    [ apply keeps_requests_ret | apply keeps_requests_raise
    | apply keeps_requests_lift | apply keeps_requests_read
    | apply keeps_requests_mkdir | apply keeps_requests_rmtree
    | apply keeps_requests_rmtree_strict | apply keeps_requests_make_executable
    | apply keeps_requests_read_file | apply keeps_requests_write_text
    | apply keeps_requests_system | apply keeps_requests_macos_sdkroot
    | apply keeps_requests_bind
    | apply keeps_requests_try_except
    | progress intros
    | match goal with
      | Hh : (if ?b then _ else _) = Some _ |- _ => destruct b; simplify_eq
      | |- keeps_requests (if ?b then _ else _) => destruct b
      | |- keeps_requests (match ?x with _ => _ end) => destruct x
      end ].

Section QuietMethods.
Context `{External}.
Variable host : Host.

Lemma keeps_requests_source_extracted (self : Package) :
  keeps_requests (Package.source_extracted host self).
Proof. unfold Package.source_extracted. quiet. Qed.

Lemma keeps_requests_build_directory_path (self : Package) :
  keeps_requests (Package.build_directory_path host self).
Proof. unfold Package.build_directory_path. quiet. Qed.

Lemma keeps_requests_main_source_directory_path (self : Package) :
  keeps_requests (Package.main_source_directory_path host self).
Proof.
  unfold Package.main_source_directory_path.
  apply keeps_requests_bind; [apply keeps_requests_source_extracted | quiet].
Qed.

Lemma keeps_requests_extract_archive (self : Package) (path where_ : Path) :
  keeps_requests (Package.extract_archive host self path where_).
Proof. unfold Package.extract_archive. quiet. Qed.

Lemma keeps_requests_extract_source_archives (self : Package) :
  keeps_requests (Package.extract_source_archives host self).
Proof.
  unfold Package.extract_source_archives.
  induction (map fst (source_archives self)) as [|k keys IH]; simpl; [quiet|].
  apply keeps_requests_bind; [apply keeps_requests_source_extracted|]. intros where_.
  apply keeps_requests_bind; [apply keeps_requests_extract_archive|]. intros _.
  exact IH.
Qed.

Lemma keeps_requests_cleanup (self : Package) :
  keeps_requests (Package.cleanup host self).
Proof.
  unfold Package.cleanup.
  apply keeps_requests_bind; [|intros _];
    (apply keeps_requests_try_except;
     [apply keeps_requests_bind;
      [first [apply keeps_requests_source_extracted
             | apply keeps_requests_build_directory_path] | quiet]
     | quiet]).
Qed.

Lemma keeps_requests_create_archive (self : Package) :
  keeps_requests (Package.create_archive host self).
Proof. unfold Package.create_archive. cbv zeta. quiet. Qed.

Lemma keeps_requests_flags :
  keeps_requests (Package.cflags host) /\ keeps_requests (Package.cxxflags host) /\
  keeps_requests (Package.ldflags host).
Proof.
  unfold Package.cflags, Package.cxxflags, Package.ldflags, Package.macos_flags.
  cbv zeta. repeat split; quiet.
Qed.

Lemma keeps_requests_export_flags (key : string)
    (flags : M State (list (option string))) (environment : gmap string string) :
  keeps_requests flags -> keeps_requests (Package.export_flags key flags environment).
Proof.
  intros Hf. unfold Package.export_flags.
  apply keeps_requests_bind; [exact Hf|]. intros [|x l]; [quiet|].
  apply keeps_requests_bind; [exact Hf|]. quiet.
Qed.

Lemma keeps_requests_environment :
  keeps_requests (Package.environment_for_configuration_script host).
Proof.
  destruct keeps_requests_flags as (Hc & Hx & Hl).
  unfold Package.environment_for_configuration_script.
  repeat (apply keeps_requests_bind; [apply keeps_requests_export_flags; assumption|];
          intros ?).
  apply keeps_requests_export_flags. assumption.
Qed.

Lemma keeps_requests_run_configuration_script (self : Package) :
  keeps_requests (Package.run_configuration_script host self).
Proof.
  unfold Package.run_configuration_script, Package.arguments_to_configuration_script.
  destruct (negb _); [quiet|].
  apply keeps_requests_bind; [quiet|]. intros _.
  apply keeps_requests_bind; [quiet|]. intros arguments.
  apply keeps_requests_bind; [apply keeps_requests_environment|]. intros environment.
  apply keeps_requests_bind; [apply keeps_requests_build_directory_path|]. quiet.
Qed.

Lemma keeps_requests_make (self : Package) :
  keeps_requests (GnuMakeMixin.run_build_command host self) /\
  keeps_requests (MakeInstallMixin.run_install_command host self).
Proof.
  unfold GnuMakeMixin.run_build_command, MakeInstallMixin.run_install_command,
    Package.environment_for_build_command.
  split;
    (apply keeps_requests_bind; [apply keeps_requests_environment|]; intros ?;
     apply keeps_requests_bind; [apply keeps_requests_build_directory_path|]; quiet).
Qed.

(** X13: of the nine stages only [fetch_source_archives] asks anything of
    the network: every other stage of a package, with or without the make
    mixins, leaves the journal of requests as it found it, whether it
    returns or raises. *)
Theorem only_fetch_source_archives_uses_the_network (self : Package) (st : stage) :
  st <> FetchSourceArchives ->
  keeps_requests (method (Package_pipeline host self) st) /\
  keeps_requests (method (GnuMake_MakeInstall_pipeline host self) st).
Proof.
  intros Hst. destruct (keeps_requests_make self) as (Hb & Hi).
  destruct st; simpl; try contradiction; split;
    first [ apply keeps_requests_cleanup
          | apply keeps_requests_extract_source_archives
          | apply keeps_requests_run_configuration_script
          | apply keeps_requests_create_archive
          | assumption
          | apply keeps_requests_ret ].
Qed.

End QuietMethods.

(** ** Extracting the source archives *)

Section ExtractAllFacts.
Context `{External}.
Variable host : Host.

Lemma extract_keys_cons_zip (self : Package) (n k : string) (keys : list string)
    (s : State) :
  name self = Some n ->
  has_suffix ".zip" (Package.source_downloads_base host // k) = true ->
  let where_ := Package.source_extracted_base host // n in
  Package.extract_keys host self (k :: keys) s =
    bind (Package.system host self "extract_archive"
            ["unzip"; "-q"; "-o"; str (Package.source_downloads_base host // k)]
            (Some where_) None false)
         (fun _ => Package.extract_keys host self keys)
         (with_fs {| files := files (fs s);
                     dirs := dirs (fs s) ∪ list_to_set (ancestors where_);
                     executable := executable (fs s) |} s).
Proof.
  intros Hn Hk where_.
  change (Package.extract_keys host self (k :: keys) s)
    with (bind (Package.source_extracted host self)
               (fun w => bind (Package.extract_archive host self
                                 (Package.source_downloads_base host // k) w)
                              (fun _ => Package.extract_keys host self keys)) s).
  unfold Package.source_extracted, Package.extract_archive.
  rewrite Hn, Hk. reflexivity.
Qed.

Lemma InOrder_count {S : Type} (actions : list (M S unit)) (s : S) (count : nat)
    (r : result unit) (s' : S) :
  InOrder actions s count r s' ->
  count <= length actions /\
  (r = Ok tt -> count = length actions) /\
  (forall e, r = Raise e -> 0 < count).
Proof.
  induction 1 as [s|m rest s s1 count r s2 Hm _ (Hle & Hok & Hraise)|m rest s e s1 Hm];
    simpl.
  - repeat split; [lia | discriminate].
  - repeat split; [lia | intros Hr; rewrite (Hok Hr); reflexivity | intros; lia].
  - repeat split; [lia | discriminate | intros; lia].
Qed.

Lemma extract_keys_zip (self : Package) (n : string) (keys : list string) :
  name self = Some n ->
  Forall (fun k => has_suffix ".zip" (Package.source_downloads_base host // k) = true)
         keys ->
  let where_ := Package.source_extracted_base host // n in
  let command k := ["unzip"; "-q"; "-o"; str (Package.source_downloads_base host // k)] in
  let unzip k : M State unit :=
    let! _ := mkdir where_ in
    Package.system host self "extract_archive" (command k) (Some where_) None false in
  let call k := {| argv := command k; cwd := Some (str where_); env := None |} in
  forall (s s' : State) (r : result unit),
    Package.extract_keys host self keys s = (r, s') ->
    exists count,
      InOrder (map unzip keys) s count r s' /\
      commands s' = commands s ++ map call (take count keys) /\
      (forall e, r = Raise e ->
         exists k rc output,
           last (take count keys) = Some k /\
           e = CalledProcessError rc (command k) output /\ rc <> 0%Z).
Proof.
  intros Hn Hzip where_ command unzip call.
  induction Hzip as [|k keys Hk _ IH]; intros s s' r Hrun.
  - injection Hrun as <- <-. exists 0. simpl. rewrite app_nil_r.
    split; [constructor|]. split; [reflexivity | discriminate].
  - rewrite (extract_keys_cons_zip self n k keys s Hn Hk) in Hrun.
    fold where_ in Hrun. fold (command k) in Hrun.
    unfold bind in Hrun.
    assert (Hstep : unzip k s =
              Package.system host self "extract_archive" (command k) (Some where_) None
                false
                (with_fs {| files := files (fs s);
                            dirs := dirs (fs s) ∪ list_to_set (ancestors where_);
                            executable := executable (fs s) |} s)) by reflexivity.
    match type of Hrun with
    | context [Package.system host self ?t ?c ?w ?e ?a ?st] =>
        destruct (system_runs_once host self t c w e a st)
          as (rc & output & s1 & Hsys & Hc & _)
    end.
    rewrite Hsys in Hrun, Hstep. simpl in Hc. destruct (Z.eqb_spec rc 0) as [Hz|Hz].
    + destruct (IH _ _ _ Hrun) as (count & Hin & Hcs & He).
      exists (S count).
      split; [eapply InOrder_next; eauto|]. split.
      * rewrite Hcs, Hc. simpl. rewrite <- app_assoc. reflexivity.
      * intros e He'. destruct (He e He') as (k' & rc' & output' & Hlast & Heq & Hrc).
        exists k', rc', output'. split; [|auto].
        destruct (InOrder_count _ _ _ _ _ Hin) as (_ & _ & Hpos).
        specialize (Hpos e He'). destruct count as [|c]; [lia|].
        destruct keys as [|k2 keys]; [simpl in Hlast; discriminate|].
        exact Hlast.
    + injection Hrun as <- <-. exists 1.
      split; [eapply InOrder_abort; eauto|]. split; [exact Hc|].
      intros e [= <-]. exists k, rc, output. simpl. auto.
Qed.

(** X14: for a package with a name whose source archives are all zip
    files, [extract_source_archives] makes the package's extracted-sources
    directory and runs unzip -q -o there for each archive, in the order of
    the dict, and stops at the first unzip that fails: the unzips before
    it returned and no unzip after it is started.  When it returns every
    archive was unpacked; when it raises, the exception is the
    [CalledProcessError] of the last unzip that ran. *)
Theorem extract_source_archives_unzips_in_order
    (self : Package) (n : string) (s s' : State) (r : result unit) :
  name self = Some n ->
  Forall (fun k => has_suffix ".zip" (Package.source_downloads_base host // k) = true)
         (map fst (source_archives self)) ->
  Package.extract_source_archives host self s = (r, s') ->
  let keys := map fst (source_archives self) in
  let where_ := Package.source_extracted_base host // n in
  let command k := ["unzip"; "-q"; "-o"; str (Package.source_downloads_base host // k)] in
  let unzip k : M State unit :=
    let! _ := mkdir where_ in
    Package.system host self "extract_archive" (command k) (Some where_) None false in
  let call k := {| argv := command k; cwd := Some (str where_); env := None |} in
  exists count,
    InOrder (map unzip keys) s count r s' /\
    commands s' = commands s ++ map call (take count keys) /\
    (r = Ok tt -> count = length keys) /\
    (forall e, r = Raise e ->
       exists k rc output,
         last (take count keys) = Some k /\
         e = CalledProcessError rc (command k) output /\ rc <> 0%Z).
Proof.
  intros Hn Hzip Hrun keys where_ command unzip call.
  unfold Package.extract_source_archives in Hrun.
  destruct (extract_keys_zip self n _ Hn Hzip s s' r Hrun) as (count & Hin & Hcs & He).
  exists count. split; [exact Hin|]. split; [exact Hcs|]. split; [|exact He].
  intros Hok. destruct (InOrder_count _ _ _ _ _ Hin) as (_ & Hall & _).
  rewrite (Hall Hok). subst keys. rewrite length_map. reflexivity.
Qed.

End ExtractAllFacts.

(** ** The Qwt package *)

Lemma before_first_splits (d : ascii) (s : string) :
  exists rest,
    s = before_first d s +:+ rest /\
    (rest = EmptyString \/ exists r, rest = String d r).
Proof.
  induction s as [|c s (rest & Hs & Hrest)]; simpl.
  - exists EmptyString. auto.
  - destruct (Ascii.eqb_spec c d) as [->|Hne].
    + exists (String d s). split; [reflexivity | eauto].
    + exists rest. split; [|exact Hrest].
      change (String c s = String c (before_first d s +:+ rest)). congruence.
Qed.

Lemma before_first_has_no_separator (d : ascii) (s a b : string) :
  before_first d s <> a +:+ String d b.
Proof.
  revert a. induction s as [|c s IH]; intros a; simpl.
  - destruct a; discriminate.
  - destruct (Ascii.eqb_spec c d) as [->|Hne].
    + destruct a; discriminate.
    + destruct a as [|x a].
      * intros [= Hc _]. contradiction.
      * intros [= _ Heq]. exact (IH a Heq).
Qed.

Lemma linux_is_not_macos_nor_windows (host : Host) :
  Package.linux host = true ->
  Package.macos host = false /\ Package.windows host = false.
Proof.
  unfold Package.linux, Package.macos, Package.windows. intros Hl. split.
  - destruct (String.eqb_spec (sys_platform host) "darwin") as [Heq|]; [|reflexivity].
    rewrite Heq in Hl. discriminate.
  - destruct (String.eqb_spec (sys_platform host) "win32") as [Heq|]; [|reflexivity].
    rewrite Heq in Hl. discriminate.
Qed.

Lemma ends_with_dot_zip (a : string) : ends_with_dot (a +:+ ".zip") = false.
Proof.
  induction a as [|c a IH]; [reflexivity|].
  change (String c a +:+ ".zip") with (String c (a +:+ ".zip")).
  destruct a as [|x a]; [reflexivity|]. exact IH.
Qed.

Lemma split_dots_zip (a : string) : In "zip" (snd (split_dots (a +:+ ".zip"))).
Proof.
  induction a as [|c a IH]; [simpl; auto|].
  change (String c a +:+ ".zip") with (String c (a +:+ ".zip")).
  simpl. destruct (split_dots (a +:+ ".zip")) as [piece rest].
  simpl in IH. destruct (Ascii.eqb c "."); simpl; auto.
Qed.

(** A file called qwt-<anything>.zip has the suffix .zip. *)
Lemma qwt_zip_has_suffix_zip (p : Path) (v : string) :
  has_suffix ".zip" (p // ("qwt-" +:+ v +:+ ".zip")) = true.
Proof.
  unfold has_suffix, suffixes, name_of, truediv. simpl parts. rewrite last_last.
  rewrite <- append_assoc. rewrite ends_with_dot_zip.
  apply existsb_exists. exists ".zip". split; [|reflexivity].
  apply in_map_iff. exists "zip". split; [reflexivity|].
  change (lstrip_dots (("qwt-" +:+ v) +:+ ".zip")) with (("qwt-" +:+ v) +:+ ".zip").
  apply split_dots_zip.
Qed.

Section QwtFacts.
Context `{External}.
Variable host : Host.
Variable q : Qwt.

(** X16: [qt_version] is the part of QT_BUILD that stands before its first
    hyphen, and all of it when it has none: it holds no hyphen, and
    QT_BUILD is [qt_version] followed by nothing or by a hyphen and the
    rest. *)
Theorem qt_version_is_the_part_before_the_first_hyphen :
  (exists rest,
     qt_build q = QwtPackage.qt_version q +:+ rest /\
     (rest = EmptyString \/ exists r, rest = "-" +:+ r)) /\
  ~ occurs "-" (QwtPackage.qt_version q).
Proof.
  unfold QwtPackage.qt_version. split.
  - apply before_first_splits.
  - intros (a & b & Heq). exact (before_first_has_no_separator _ _ _ _ Heq).
Qed.

(** X17: the Qt install directory exists as a path on Windows, Linux and
    macOS only.  There it is toolbase/qt/qt-<QT_BUILD>/<qt_version>/<build
    type> with the build type of the platform, and the configuration script
    is bin/qmake in it (qmake.exe on Windows).  On any other platform the
    build type is [None], joining it to the path raises [TypeError], and
    [run_configuration_script] raises it without running anything. *)
Theorem qt_install_dir_needs_a_known_platform :
  let base :=
    Package.toolbase host // "qt" // ("qt-" +:+ qt_build q) // QwtPackage.qt_version q in
  (Package.windows host = false -> Package.linux host = false ->
   Package.macos host = false ->
   exists msg,
     QwtPackage.qt_install_dir host q = Raise (TypeError msg) /\
     QwtPackage.configuration_script host q = Raise (TypeError msg) /\
     forall s, QwtPackage.run_configuration_script host q s = (Raise (TypeError msg), s)) /\
  (Package.windows host = true ->
   QwtPackage.qt_install_dir host q = Ok (base // "msvc2017_64") /\
   QwtPackage.configuration_script host q =
     Ok (base // "msvc2017_64" // "bin" // "qmake.exe")) /\
  (Package.linux host = true ->
   QwtPackage.qt_install_dir host q = Ok (base // "gcc_64") /\
   QwtPackage.configuration_script host q = Ok (base // "gcc_64" // "bin" // "qmake")) /\
  (Package.macos host = true -> Package.linux host = false ->
   Package.windows host = false ->
   QwtPackage.qt_install_dir host q = Ok (base // "clang_64") /\
   QwtPackage.configuration_script host q = Ok (base // "clang_64" // "bin" // "qmake")).
Proof.
  intros base.
  unfold QwtPackage.run_configuration_script, QwtPackage.configuration_script,
    QwtPackage.qt_install_dir, QwtPackage.qt_buildtype.
  fold base. split; [|split; [|split]].
  - intros -> -> ->. simpl. eexists. repeat split.
  - intros ->. split; reflexivity.
  - intros Hl. destruct (linux_is_not_macos_nor_windows host Hl) as (_ & ->).
    rewrite Hl. split; reflexivity.
  - intros -> -> ->. split; reflexivity.
Qed.

(** X18: on Linux the environment in which Qwt is built is [os.environ]
    with CFLAGS set to -O2, CXXFLAGS set to "-O2 -Wno-deprecated-copy" and
    VERBOSE set to 1, and nothing else changed. *)
Theorem qwt_build_environment_on_linux (s : State) :
  Package.linux host = true ->
  QwtPackage.environment_for_build_command host s =
    (Ok (<["VERBOSE" := "1"]>
           (<["CXXFLAGS" := "-O2 -Wno-deprecated-copy"]>
              (<["CFLAGS" := "-O2"]> (environ host)))), s).
Proof.
  intros Hl. destruct (linux_is_not_macos_nor_windows host Hl) as (Hm & _).
  unfold QwtPackage.environment_for_build_command,
    QwtPackage.environment_for_configuration_script, QwtPackage.cxxflags,
    Package.export_flags, Package.cflags, Package.cxxflags, Package.ldflags.
  rewrite Hm, Hl. reflexivity.
Qed.

(** X19: [main] removes the three trees in one [try], so when the install
    directory is not there the first removal raises, the error is
    swallowed, and neither toolbase/qt nor the extracted sources are
    removed: [main] is then just [build] from the state it found. *)
Theorem main_removes_nothing_without_install_directory (s : State) (b : string) :
  Package.output_base_name host (QwtPackage.self q) s = Ok b ->
  str (Package.toolbase host // "qwt" // b) ∉ dirs (fs s) ->
  QwtPackage.main host q s = build (QwtPackage.pipeline host q) s.
Proof.
  intros Hb Hnot.
  destruct (properties_built_on_output_base_name host _ s b Hb) as (n & Hn & Hi & _).
  injection Hn as <-.
  unfold QwtPackage.main. unfold bind at 1. unfold try_except.
  unfold bind at 1. unfold read. rewrite Hi.
  unfold bind at 1. unfold rmtree_strict at 1.
  rewrite (bool_decide_eq_false_2 _ Hnot). reflexivity.
Qed.


End QwtFacts.

(** Takes a method of a class apart down to the methods of [Package]. *)
Ltac quieter :=
  repeat first
    [ apply keeps_requests_source_extracted
    | apply keeps_requests_build_directory_path
    | apply keeps_requests_main_source_directory_path
    | apply keeps_requests_extract_archive
    | apply keeps_requests_cleanup
    | apply keeps_requests_create_archive
    | apply keeps_requests_export_flags
    | apply keeps_requests_system
    | apply keeps_requests_ret | apply keeps_requests_lift
    | apply keeps_requests_read | apply keeps_requests_mkdir
    | apply keeps_requests_rmtree_strict | apply keeps_requests_make_executable
    | apply keeps_requests_read_file | apply keeps_requests_write_text
    | apply keeps_requests_bind
    | progress intros
    | match goal with
      | |- keeps_requests (if ?b then _ else _) => destruct b
      end ].

Lemma keeps_requests_build `{External} (self : Pipeline State) :
  (forall st, keeps_requests (method self st)) -> keeps_requests (build self).
Proof.
  intros Hs. unfold build.
  apply keeps_requests_bind; [exact (Hs Cleanup)|intros _].
  apply keeps_requests_bind; [exact (Hs FetchSourceArchives)|intros _].
  apply keeps_requests_bind; [exact (Hs ExtractSourceArchives)|intros _].
  apply keeps_requests_bind; [exact (Hs PatchSources)|intros _].
  apply keeps_requests_bind; [exact (Hs RunConfigurationScript)|intros _].
  apply keeps_requests_bind; [exact (Hs RunBuildCommand)|intros _].
  apply keeps_requests_bind; [exact (Hs RunInstallCommand)|intros _].
  apply keeps_requests_bind; [exact (Hs Verify)|intros _].
  exact (Hs CreateArchive).
Qed.

Section QwtNetwork.
Context `{External}.
Variable host : Host.
Variable q : Qwt.

Lemma keeps_requests_qwt_environment :
  keeps_requests (QwtPackage.environment_for_configuration_script host) /\
  keeps_requests (QwtPackage.environment_for_build_command host).
Proof.
  destruct (keeps_requests_flags host) as (Hc & Hx & Hl).
  assert (Hq : keeps_requests (QwtPackage.cxxflags host)).
  { unfold QwtPackage.cxxflags. apply keeps_requests_bind; [exact Hx|]. quieter. }
  assert (He : keeps_requests (QwtPackage.environment_for_configuration_script host)).
  { unfold QwtPackage.environment_for_configuration_script.
    repeat (apply keeps_requests_bind;
            [apply keeps_requests_export_flags; assumption|]; intros ?).
    apply keeps_requests_export_flags. assumption. }
  split; [exact He|].
  unfold QwtPackage.environment_for_build_command.
  apply keeps_requests_bind; [exact He | quieter].
Qed.

Lemma keeps_requests_qwt_stages (st : stage) :
  keeps_requests (method (QwtPackage.pipeline host q) st).
Proof.
  destruct keeps_requests_qwt_environment as (He & Hb).
  destruct st; simpl.
  - apply keeps_requests_cleanup.
  - unfold Package.fetch_source_archives. simpl. apply keeps_requests_ret.
  - unfold QwtPackage.extract_source_archives. quieter.
  - apply keeps_requests_ret.
  - unfold QwtPackage.run_configuration_script,
      QwtPackage.arguments_to_configuration_script.
    apply keeps_requests_bind; [quieter|]. intros script.
    apply keeps_requests_bind; [quieter|]. intros _.
    apply keeps_requests_bind; [quieter|]. intros arguments.
    apply keeps_requests_bind; [exact He|]. quieter.
  - unfold QwtPackage.run_build_command.
    apply keeps_requests_bind; [exact Hb|]. quieter.
  - unfold QwtPackage.run_install_command.
    apply keeps_requests_bind; [exact Hb|]. quieter.
  - apply keeps_requests_ret.
  - apply keeps_requests_create_archive.
Qed.

(** X21: building Qwt asks nothing of the network.  The class declares no
    source archive, so [fetch_source_archives] has nothing to download, and
    no other stage makes a request: after [build], and after [main], the
    journal of requests is the one before, whatever happened. *)
Theorem building_qwt_asks_nothing_of_the_network :
  keeps_requests (build (QwtPackage.pipeline host q)) /\
  keeps_requests (QwtPackage.main host q).
Proof.
  assert (Hbuild : keeps_requests (build (QwtPackage.pipeline host q))).
  { apply keeps_requests_build. exact keeps_requests_qwt_stages. }
  split; [exact Hbuild|].
  unfold QwtPackage.main. apply keeps_requests_bind; [|intros _; exact Hbuild].
  apply keeps_requests_try_except; [quieter|].
  intros e h Hh. destruct (is_OSError e); [|discriminate].
  injection Hh as <-. apply keeps_requests_ret.
Qed.

End QwtNetwork.

(** * The further properties at concrete inputs *)

Lemma platform_is_None_only_on_unrecognised_linux_witness :
  Package.platform linux_host qwt (start []) = Ok (Some "linux") /\
  Package.platform linux_host qwt_with_distribution (start []) = Ok None.
Proof.
  split.
  - apply (proj1 (platform_is_None_only_on_unrecognised_linux linux_host qwt (start []))).
    left. reflexivity.
  - apply (proj2 (platform_is_None_only_on_unrecognised_linux
                    linux_host qwt_with_distribution (start []))).
    repeat split; vm_compute; reflexivity.
Defined.

Lemma output_base_name_format_witness :
  exists n v p,
    name qwt = Some n /\ version qwt = Some v /\
    Package.platform windows_host qwt (start []) = Ok (Some p) /\
    "qwt-6.1.4-20200101.1-win32-vs2019" =
      join "-"
        ([n; v;
          default "do-not-use-me-developer-version"
                  (environ windows_host !! "BUILD_BUILDNUMBER");
          p] ++
         match use_vs_version_in_base_name qwt,
               environ windows_host !! "BUILD_VS_VERSION" with
         | true, Some toolset => ["vs" +:+ toolset]
         | _, _ => []
         end).
Proof.
  apply (proj1 (output_base_name_format windows_host qwt (start [])
                  "qwt-6.1.4-20200101.1-win32-vs2019")).
  vm_compute; reflexivity.
Defined.

Lemma output_base_name_tells_build_numbers_apart_witness :
  "qwt-6.1.4-20200101.1-win32-vs2019" <> "qwt-6.1.4-20200102.3-win32-vs2019".
Proof.
  apply (output_base_name_tells_build_numbers_apart
           windows_host
           (host_of "win32" [("BUILD_BUILDNUMBER", "20200102.3");
                             ("BUILD_VS_VERSION", "2019")])
           qwt (start []) "20200101.1" "20200102.3");
    try (vm_compute; reflexivity).
  discriminate.
Defined.

Lemma environment_for_configuration_script_off_macos_witness :
  Package.environment_for_configuration_script linux_host (start []) =
    (Ok (<["CXXFLAGS" := "-O2"]> (<["CFLAGS" := "-O2"]> (environ linux_host))), start []).
Proof.
  apply (environment_for_configuration_script_off_macos linux_host (start [])).
  vm_compute; reflexivity.
Defined.

Lemma macos_sdkroot_is_cached_witness :
  cached_sdkroot mac_cached = Some "/Library/SDKs/MacOSX.sdk" /\
  (truthy (cached_sdkroot mac_start) = false ->
   exists out, @check_output with_xcrun "xcrun --show-sdk-path" (fs mac_start)
                             (outside mac_start) = Ok out /\
               "/Library/SDKs/MacOSX.sdk" = drop_last out) /\
  (forall t : @State with_xcrun,
     cached_sdkroot t = Some "/Library/SDKs/MacOSX.sdk" ->
     Package.macos_sdkroot mac_host t = (Ok (Some "/Library/SDKs/MacOSX.sdk"), t)).
Proof.
  apply (macos_sdkroot_is_cached mac_host mac_start mac_cached
           "/Library/SDKs/MacOSX.sdk"); vm_compute; reflexivity.
Defined.

Lemma run_configuration_script_runs_the_script_witness :
  Package.run_configuration_script linux_host qwt_with_qmake (start []) =
    (Raise (FileNotFoundError "/opt/qt/bin/qmake"), start []) /\
  map argv (commands (snd (Package.run_configuration_script linux_host qwt_with_qmake
                                                           (qmake_installed [])))) =
    [["/opt/qt/bin/qmake";
      "--prefix=/opt/ccdc/third-party/qwt/qwt-6.1.4-do-not-use-me-developer-version-linux"]].
Proof.
  split.
  - apply (proj1 (run_configuration_script_runs_the_script linux_host qwt_with_qmake
                    (start []) "/opt/qt/bin/qmake" eq_refl eq_refl)).
    vm_compute; reflexivity.
  - pose proof (proj2 (run_configuration_script_runs_the_script linux_host qwt_with_qmake
                         (qmake_installed []) "/opt/qt/bin/qmake" eq_refl eq_refl)
                  ltac:(vm_compute; reflexivity) ltac:(vm_compute; reflexivity)) as Hrun.
    cbv zeta in Hrun.
    destruct (Package.install_directory linux_host qwt_with_qmake _) as [d|e] eqn:Hd;
      vm_compute in Hd; [|discriminate].
    injection Hd as <-. destruct Hrun as (n & Hn & Hrun). injection Hn as <-.
    rewrite Hrun. vm_compute; reflexivity.
Defined.

Lemma make_mixins_run_make_in_the_build_directory_witness :
  map argv (commands (snd (GnuMakeMixin.run_build_command linux_host qwt (start [])))) =
    [["make"; "-j4"]] /\
  map argv (commands (snd (MakeInstallMixin.run_install_command linux_host qwt
                                                                (start [])))) =
    [["make"; "install"]].
Proof.
  destruct (make_mixins_run_make_in_the_build_directory linux_host qwt (start []) "qwt"
              ltac:(vm_compute; reflexivity) ltac:(reflexivity)) as [Hb Hi].
  rewrite Hb, Hi. split; vm_compute; reflexivity.
Defined.

Lemma cleanup_of_a_nameless_package_raises_witness :
  exists msg,
    Package.cleanup linux_host base_package with_leftovers =
      (Raise (TypeError msg), with_leftovers) /\
    build (Package_pipeline linux_host base_package) with_leftovers =
      (Raise (TypeError msg), with_leftovers) /\
    build (GnuMake_MakeInstall_pipeline linux_host base_package) with_leftovers =
      (Raise (TypeError msg), with_leftovers).
Proof.
  apply (cleanup_of_a_nameless_package_raises linux_host base_package with_leftovers).
  reflexivity.
Defined.

(** After [cleanup] only the downloaded archive is left. *)
Example cleanup_keeps_the_download :
  map_to_list (files (fs (snd (Package.cleanup linux_host qwt with_leftovers)))) =
    [("/opt/ccdc/third-party-sources/downloads/qwt-6.1.4.zip", "PK")].
Proof. vm_compute. reflexivity. Qed.

Lemma create_archive_raises_before_running_witness :
  exists msg,
    Package.create_archive linux_host base_package (start []) =
      (Raise (TypeError msg), start []).
Proof.
  eexists.
  apply (create_archive_raises_before_running linux_host base_package (start [])).
  vm_compute; reflexivity.
Defined.

Lemma fetch_source_archives_stops_at_failed_download_witness :
  (exists f u o o',
     In (f, u) (source_archives two_archives) /\
     last (requests (snd (Package.fetch_source_archives linux_host two_archives
                                                        offline_start))) = Some u /\
     ((@urlopen offline u o =
         (Failed (URLError "https://example.org/qwt-6.1.4.zip"), o') /\
       path_exists (fs (snd (Package.fetch_source_archives linux_host two_archives
                                                           offline_start)))
                   (Package.download_path linux_host f) = false) \/
      (exists partial,
         @urlopen offline u o =
           (Interrupted partial (URLError "https://example.org/qwt-6.1.4.zip"), o') /\
         files (fs (snd (Package.fetch_source_archives linux_host two_archives
                                                       offline_start)))
           !! Package.download_path linux_host f = Some partial /\
         path_exists (fs (snd (Package.fetch_source_archives linux_host two_archives
                                                             offline_start)))
                     (Package.download_path linux_host f) = true))) /\
  (exists f u o o',
     In (f, u) (source_archives two_archives) /\
     last (requests (snd (Package.fetch_source_archives linux_host two_archives
                                                        dropping_start))) = Some u /\
     ((@urlopen dropping u o =
         (Failed (ConnectionResetError "Connection reset by peer"), o') /\
       path_exists (fs (snd (Package.fetch_source_archives linux_host two_archives
                                                           dropping_start)))
                   (Package.download_path linux_host f) = false) \/
      (exists partial,
         @urlopen dropping u o =
           (Interrupted partial (ConnectionResetError "Connection reset by peer"), o') /\
         files (fs (snd (Package.fetch_source_archives linux_host two_archives
                                                       dropping_start)))
           !! Package.download_path linux_host f = Some partial /\
         path_exists (fs (snd (Package.fetch_source_archives linux_host two_archives
                                                             dropping_start)))
                     (Package.download_path linux_host f) = true))).
Proof.
  split.
  - apply (fetch_source_archives_stops_at_failed_download linux_host two_archives
             offline_start).
    vm_compute; reflexivity.
  - apply (fetch_source_archives_stops_at_failed_download linux_host two_archives
             dropping_start).
    vm_compute; reflexivity.
Defined.

Lemma fetch_source_archives_touches_only_its_downloads_witness :
  commands both_archives_cached = commands first_archive_cached /\
  dirs (fs both_archives_cached) = dirs (fs first_archive_cached) /\
  executable (fs both_archives_cached) = executable (fs first_archive_cached) /\
  forall k, (forall f u, In (f, u) (source_archives two_archives) ->
                         k <> Package.download_path linux_host f) ->
            files (fs both_archives_cached) !! k = files (fs first_archive_cached) !! k.
Proof.
  apply (fetch_source_archives_touches_only_its_downloads linux_host two_archives
           first_archive_cached both_archives_cached (Ok tt)).
  vm_compute; reflexivity.
Defined.

Lemma only_fetch_source_archives_uses_the_network_witness :
  keeps_requests (method (@Package_pipeline scripted linux_host qwt) CreateArchive) /\
  keeps_requests
    (method (@GnuMake_MakeInstall_pipeline scripted linux_host qwt) CreateArchive).
Proof.
  apply (@only_fetch_source_archives_uses_the_network scripted linux_host qwt
           CreateArchive).
  discriminate.
Defined.

Lemma extract_source_archives_unzips_in_order_witness :
  let ran := Package.extract_source_archives linux_host two_zips (start [0%Z; 2%Z]) in
  let keys := map fst (source_archives two_zips) in
  let where_ := Package.source_extracted_base linux_host // "qwt" in
  let command k :=
    ["unzip"; "-q"; "-o"; str (Package.source_downloads_base linux_host // k)] in
  let unzip k : M State unit :=
    let! _ := mkdir where_ in
    Package.system linux_host two_zips "extract_archive" (command k) (Some where_) None
                   false in
  let call k := {| argv := command k; cwd := Some (str where_); env := None |} in
  exists count,
    InOrder (map unzip keys) (start [0%Z; 2%Z]) count (fst ran) (snd ran) /\
    commands (snd ran) = commands (start [0%Z; 2%Z]) ++ map call (take count keys) /\
    (fst ran = Ok tt -> count = length keys) /\
    (forall e, fst ran = Raise e ->
       exists k rc output,
         last (take count keys) = Some k /\
         e = CalledProcessError rc (command k) output /\ rc <> 0%Z).
Proof.
  apply (extract_source_archives_unzips_in_order linux_host two_zips "qwt"
           (start [0%Z; 2%Z])
           (snd (Package.extract_source_archives linux_host two_zips (start [0%Z; 2%Z])))
           (fst (Package.extract_source_archives linux_host two_zips (start [0%Z; 2%Z])))).
  - reflexivity.
  - repeat constructor.
  - vm_compute; reflexivity.
Defined.

(** The run of the witness: the first unzip returns, the second ends with
    status 2 and is the one the exception names. *)
Example extract_source_archives_stops_at_second_unzip :
  let ran := Package.extract_source_archives linux_host two_zips (start [0%Z; 2%Z]) in
  fst ran =
    Raise (CalledProcessError 2
             ["unzip"; "-q"; "-o"; "/opt/ccdc/third-party-sources/downloads/extras.zip"]
             EmptyString) /\
  map argv (commands (snd ran)) =
    [["unzip"; "-q"; "-o"; "/opt/ccdc/third-party-sources/downloads/qwt-6.1.4.zip"];
     ["unzip"; "-q"; "-o"; "/opt/ccdc/third-party-sources/downloads/extras.zip"]].
Proof. vm_compute. split; reflexivity. Qed.

Lemma patch_rewrites_one_file_witness :
  let pri := "/opt/ccdc/third-party-sources/extracted/qwt/qwt-6.1.4/qwtconfig.pri" in
  let subs := [("/usr/local/qwt-$$QWT_VERSION", "/opt/qwt")] in
  let stored := "QWT_INSTALL_PREFIX = /usr/local/qwt-$$QWT_VERSION" in
  patch linux_host "/nowhere" subs (qwt_unpacked []) =
    (Raise (FileNotFoundError "/nowhere"), qwt_unpacked []) /\
  let txt := universal_newlines stored in
  let written := to_linesep (Package.windows linux_host) (substitute subs txt) in
  exists s',
    patch linux_host pri subs (qwt_unpacked []) = (Ok tt, s') /\
    files (fs s') !! pri = Some written /\
    (forall k, k <> pri -> files (fs s') !! k = files (fs (qwt_unpacked [])) !! k) /\
    dirs (fs s') = dirs (fs (qwt_unpacked [])) /\
    commands s' = commands (qwt_unpacked []) /\
    requests s' = requests (qwt_unpacked []) /\
    (s' = qwt_unpacked [] <-> written = stored) /\
    (Forall (fun sub => fst sub <> EmptyString /\ ~ occurs (fst sub) txt) subs ->
     written = to_linesep (Package.windows linux_host) txt /\
     (Package.windows linux_host = false -> has_char cr stored = false ->
      s' = qwt_unpacked [])).
Proof.
  intros pri subs stored. split.
  - apply (proj1 (patch_rewrites_one_file linux_host "/nowhere" subs (qwt_unpacked []))).
    vm_compute; reflexivity.
  - apply (proj2 (patch_rewrites_one_file linux_host pri subs (qwt_unpacked []))).
    vm_compute; reflexivity.
Defined.

(** The substitution of the witness, carried out on Linux and on Windows,
    and a file with Windows line ends that [patch] rewrites on Linux though
    no pattern stands in it. *)
Example patch_redirects_the_prefix :
  let pri := "/opt/ccdc/third-party-sources/extracted/qwt/qwt-6.1.4/qwtconfig.pri" in
  files (fs (snd (patch linux_host pri
                    [("/usr/local/qwt-$$QWT_VERSION", "/opt/qwt" +:+ nl)]
                    (qwt_unpacked [])))) !! pri =
    Some ("QWT_INSTALL_PREFIX = /opt/qwt" +:+ nl) /\
  files (fs (snd (patch windows_host pri
                    [("/usr/local/qwt-$$QWT_VERSION", "/opt/qwt" +:+ nl)]
                    (qwt_unpacked [])))) !! pri =
    Some ("QWT_INSTALL_PREFIX = /opt/qwt" +:+ String cr nl) /\
  files (fs dos_file) !! "/tmp/qwtconfig.pri" =
    Some (String "a" (String cr (String lf (String "b" EmptyString)))) /\
  files (fs (snd (patch linux_host "/tmp/qwtconfig.pri" [("c", "d")] dos_file)))
    !! "/tmp/qwtconfig.pri" =
    Some (String "a" (String lf (String "b" EmptyString))).
Proof. vm_compute. repeat split; reflexivity. Qed.

Lemma qt_install_dir_needs_a_known_platform_witness :
  (exists msg,
     QwtPackage.qt_install_dir (host_of "cygwin" []) qwt_6_1_4 = Raise (TypeError msg) /\
     QwtPackage.configuration_script (host_of "cygwin" []) qwt_6_1_4 =
       Raise (TypeError msg) /\
     forall s : @State scripted,
       QwtPackage.run_configuration_script (host_of "cygwin" []) qwt_6_1_4 s =
         (Raise (TypeError msg), s)) /\
  str <$> match QwtPackage.configuration_script linux_host qwt_6_1_4 with
          | Ok p => Some p
          | Raise _ => None
          end = Some "/opt/ccdc/third-party/qt/qt-5.12.7-1/5.12.7/gcc_64/bin/qmake".
Proof.
  split.
  - apply (proj1 (@qt_install_dir_needs_a_known_platform scripted
                    (host_of "cygwin" []) qwt_6_1_4)); vm_compute; reflexivity.
  - destruct (proj1 (proj2 (proj2 (@qt_install_dir_needs_a_known_platform scripted
                    linux_host qwt_6_1_4))) ltac:(vm_compute; reflexivity)) as [_ Hc].
    rewrite Hc. vm_compute; reflexivity.
Defined.

Lemma qwt_build_environment_on_linux_witness :
  QwtPackage.environment_for_build_command linux_host (start []) =
    (Ok (<["VERBOSE" := "1"]>
           (<["CXXFLAGS" := "-O2 -Wno-deprecated-copy"]>
              (<["CFLAGS" := "-O2"]> (environ linux_host)))), start []).
Proof.
  apply (qwt_build_environment_on_linux linux_host (start [])).
  vm_compute; reflexivity.
Defined.

Lemma main_removes_nothing_without_install_directory_witness :
  QwtPackage.main linux_host qwt_6_1_4 (qwt_unpacked []) =
    build (QwtPackage.pipeline linux_host qwt_6_1_4) (qwt_unpacked []).
Proof.
  apply (main_removes_nothing_without_install_directory linux_host qwt_6_1_4
           (qwt_unpacked []) "qwt-6.1.4-do-not-use-me-developer-version-linux").
  - vm_compute; reflexivity.
  - apply (bool_decide_eq_false_1 _). vm_compute; reflexivity.
Defined.

